(** * django-data-browser: field descriptors, bound-field chains and the
      aggregate registry

    A shallow embedding of [data_browser/orm_fields.py] and
    [data_browser/orm_aggregates.py].

    Python objects become records, classes become a tag on the record,
    [raise] becomes the [Raise] branch of the [Outcome] monad, dictionaries
    become stdpp finite maps (the insertion order of a Python dictionary is
    not kept; no statement below is about it).  The modules [types.py],
    [util.py] and the Django settings are not part of the two files; what
    the code uses of them is taken as section variables. *)

From Stdlib Require Import ZArith Ascii String.
From stdpp Require Import base option list strings gmap fin_maps fin_map_dom.
From stdpp Require Import pretty.

Open Scope string_scope.
Open Scope list_scope.

Set Default Proof Using "Type".
#[local] Set Warnings "-clear-no-such-hyp".

(** ** Python exceptions and results *)

(** The exception classes that occur.  [SystemExiting] stands for the
    classes that derive from [BaseException] but not from [Exception]
    (KeyboardInterrupt, SystemExit, GeneratorExit). *)
Inductive ExcClass :=
| AssertionError
| AttributeError
| KeyError
| TypeError
| OtherException (cls : string)
| SystemExiting (cls : string).

(** [isinstance(e, Exception)]. *)
Definition is_Exception (c : ExcClass) : bool :=
  match c with
  | SystemExiting _ => false
  | _ => true
  end.

(** An exception object: its class and what [str(e)] gives. *)
Record PyExc := mkExc { exc_class : ExcClass; exc_str : string }.

Inductive Outcome (A : Type) :=
| Return (a : A)
| Raise (e : PyExc).
Arguments Return {A} a.
Arguments Raise {A} e.

#[global] Instance Outcome_ret : MRet Outcome := fun _ a => Return a.
#[global] Instance Outcome_bind : MBind Outcome := fun _ _ k m =>
  match m with
  | Return a => k a
  | Raise e => Raise e
  end.

#[global] Instance Outcome_fmap : FMap Outcome := fun _ _ f m =>
  match m with
  | Return a => Return (f a)
  | Raise e => Raise e
  end.

(** [assert c] with no message. *)
Definition py_assert (c : bool) : Outcome unit :=
  if c then Return tt else Raise (mkExc AssertionError "").

(** Attribute access on [None]. *)
Definition none_has_no_attribute {A} (attr : string) : Outcome A :=
  Raise (mkExc AttributeError
           ("'NoneType' object has no attribute '" +:+ attr +:+ "'")).

(** [try: body  except Exception as e: handler(e)]: only instances of
    [Exception] are caught. *)
Definition try_except_Exception {A} (body : Outcome A)
    (handler : PyExc -> Outcome A) : Outcome A :=
  match body with
  | Return a => Return a
  | Raise e => if is_Exception (exc_class e) then handler e else Raise e
  end.

Fixpoint mapM {A B} (f : A -> Outcome B) (l : list A) : Outcome (list B) :=
  match l with
  | [] => Return []
  | x :: r => y ← f x; ys ← mapM f r; Return (y :: ys)
  end.

(** A [for] loop threading a state through a fallible body. *)
Fixpoint for_each {A S} (body : S -> A -> Outcome S) (l : list A) (st : S)
    : Outcome S :=
  match l with
  | [] => Return st
  | x :: r => st' ← body st x; for_each body r st'
  end.

(** ** Python values seen by the formatters *)

Inductive PyValue :=
| PyNone
| PyBool (b : bool)
| PyInt (n : Z)
| PyStr (s : string)
| PyObject (id : nat) (truth : bool).
    (* any other object; [truth] is what its class gives for [bool(obj)] *)

(** Truth value testing. *)
Definition truthy (v : PyValue) : bool :=
  match v with
  | PyNone => false
  | PyBool b => b
  | PyInt n => negb (n =? 0)%Z
  | PyStr s => negb (String.eqb s "")
  | PyObject _ t => t
  end.

(** Truth of an optional string ([None] and the empty string are false). *)
Definition str_truthy (o : option string) : bool :=
  match o with
  | None => false
  | Some s => negb (String.eqb s "")
  end.

(** [name.replace(old, new)] for one-character [old] and [new]. *)
Fixpoint replace_char (old new : ascii) (str : string) : string :=
  match str with
  | EmptyString => EmptyString
  | String c r =>
      String (if Ascii.eqb c old then new else c) (replace_char old new r)
  end.

(** [sub in str] on strings. *)
Fixpoint str_contains (sub str : string) : bool :=
  String.prefix sub str ||
  match str with
  | EmptyString => false
  | String _ r => str_contains sub r
  end.

(** ** Semantic types (classes of [types.py]) *)

(** The classes the two files import by name, and [OtherType] for every
    further class of [types.py]; classes are compared by identity. *)
Inductive BaseType :=
| BooleanType
| DateTimeType
| DateType
| DurationType
| NumberType
| HTMLType
| OtherType (cls : string).

#[global] Instance BaseType_eq_dec : EqDecision BaseType.
Proof. solve_decision. Defined.

#[global] Instance BaseType_countable : Countable BaseType.
Proof.
  refine (inj_countable'
    (fun t => match t with
              | BooleanType => inl 0 | DateTimeType => inl 1
              | DateType => inl 2 | DurationType => inl 3
              | NumberType => inl 4 | HTMLType => inl 5
              | OtherType c => inr c
              end)
    (fun x => match x with
              | inl 0 => BooleanType | inl 1 => DateTimeType
              | inl 2 => DateType | inl 3 => DurationType
              | inl 4 => NumberType | inl _ => HTMLType
              | inr c => OtherType c
              end) _).
  by intros [].
Defined.

(** A subclass of [ArrayTypeMixin]: the class itself and its two class
    attributes. *)
Record ArrayType := mkArrayType {
  array_cls : BaseType;
  element_type : BaseType;
  raw_type : option BaseType
}.

(** ** Django expressions built by the aggregate functions *)

Inductive OutputField := IntegerField | DurationField.

Inductive Expr :=
| Ref (path : string)
| Cast (e : Expr) (output_field : OutputField)
| CastDuration (e : Expr)            (* [_CastDuration] *)
| ValueEmptyList.                    (* [Value([])] *)

Inductive Func :=
| Count (e : Expr) (distinct : bool)
| Max (e : Expr)
| Min (e : Expr)
| Avg (e : Expr)
| StdDev (e : Expr)
| Sum (e : Expr)
| Variance (e : Expr)
| ArrayAgg (e : Expr) (default : Expr) (distinct : bool) (ordering : Expr).

(** ** Field descriptors *)

(** A callable handed to a calculated field: its [boolean] attribute (as
    [getattr(func, "boolean", False)] sees it) and its behaviour. *)
Record Callable := mkCallable {
  boolean : bool;
  call : PyValue -> Outcome PyValue
}.

(** The class of a descriptor together with the attributes its
    [__init__] adds. *)
Inductive FieldClass :=
| ClsBase
| ClsFk
| ClsConcrete
| ClsRaw
| ClsCalculated (func : Callable)
| ClsAnnotated (field_type admin : PyValue)
| ClsFile (storage_url : PyValue -> Outcome PyValue)
    (* [django_field.storage.url] *)
| ClsAggregate (base_type : BaseType) (agg_func : string -> Outcome Func).

(** The dataclass [OrmBaseField]. *)
Record OrmBaseField := mkOrmBaseField {
  cls : FieldClass;
  model_name : string;
  name : string;
  pretty_name : string;
  type_ : option BaseType;
  concrete : bool;
  rel_name : option string;
  can_pivot : bool;
  choices : list (string * string)
}.

(** The dataclass [OrmBoundField]; [annotated] tells the subclass
    [OrmBoundAnnotatedField] apart. *)
#[warnings="-register-all"]
Inductive OrmBoundField := mkOrmBoundField {
  annotated : bool;
  field : option OrmBaseField;
  previous : option OrmBoundField;
  full_path : list string;
  pretty_path : list string;
  queryset_path : list string;
  aggregate_clause : option Func;
  filter_ : bool;
  having : bool;
  bound_model_name : option string
}.

(** [OrmBoundField.blank()]. *)
Definition blank : OrmBoundField :=
  {| annotated := false; field := None; previous := None;
     full_path := []; pretty_path := []; queryset_path := [];
     aggregate_clause := None; filter_ := false; having := false;
     bound_model_name := None |}.

(** [previous or OrmBoundField.blank()]: a bound field is always true. *)
Definition or_blank (previous : option OrmBoundField) : OrmBoundField :=
  match previous with
  | Some p => p
  | None => blank
  end.

(** [OrmBoundField.__getattr__("type_")]: delegated to the descriptor. *)
Definition bound_type_ (b : OrmBoundField) : Outcome (option BaseType) :=
  match field b with
  | Some f => Return (type_ f)
  | None => none_has_no_attribute "type_"
  end.

(** The property [OrmBoundField.group_by], [self.field.can_pivot].  With
    no descriptor the getter raises an AttributeError; the attribute
    look-up then falls back to [__getattr__("group_by")], that is
    [getattr(None, "group_by")], and it is that error the caller sees. *)
Definition group_by (b : OrmBoundField) : Outcome bool :=
  match field b with
  | Some f => Return (can_pivot f)
  | None => none_has_no_attribute "group_by"
  end.

(** [OrmBoundField._lineage]: oldest ancestor first. *)
Fixpoint _lineage (b : OrmBoundField) : list OrmBoundField :=
  match previous b with
  | Some p => _lineage p ++ [b]
  | None => [b]
  end.

(** [OrmBaseField.__post_init__]. *)
Definition __post_init__ (f : OrmBaseField) : Outcome unit :=
  _ ← (if negb (bool_decide (is_Some (type_ f)))
       then py_assert (str_truthy (rel_name f))
       else Return tt);
  if concrete f || can_pivot f
  then py_assert (bool_decide (is_Some (type_ f)))
  else Return tt.

(** The generated [__init__] of the dataclass followed by
    [__post_init__]. *)
Definition OrmBaseField_init (c : FieldClass) (model_name name pretty_name : string)
    (type_ : option BaseType) (concrete : bool) (rel_name : option string)
    (can_pivot : bool) (choices : list (string * string))
    : Outcome OrmBaseField :=
  let f := mkOrmBaseField c model_name name pretty_name type_ concrete
             rel_name can_pivot choices in
  _ ← __post_init__ f; Return f.

(** The template ['<a href="{}">{}</a>'] of the file formatter. *)
Definition link_template : string :=
  let dq := String (ascii_of_nat 34) EmptyString in
  "<a href=" +:+ dq +:+ "{}" +:+ dq +:+ ">{}</a>".

(** ** Model names *)

(** What [get_model_name] reads of a model class: [model._meta.app_label]
    and [model.__name__]. *)
Record Model := mkModel { app_label : string; __name__ : string }.

(** [get_model_name(model, sep=".")]; [None] stands for the omitted
    argument. *)
Definition get_model_name (model : Model) (sep : option string) : string :=
  app_label model +:+ default "." sep +:+ __name__ model.

(** ** Querysets *)

(** The querysets built by [_annotate], kept as terms: a queryset that
    comes from outside, and on it [.filter(pk=OuterRef(ref))],
    [.values(field)], the slice to the first row, and [.annotate] of one
    alias with [Subquery(subquery, output_field=output_field)].  A term
    records what a call returns when Django accepts it; whether Django
    accepts it is asked of [django_raises] below. *)
Inductive QuerySet :=
| QsGiven (id : nat)
| QsFilterPkOuterRef (qs : QuerySet) (ref : string)
| QsValues (qs : QuerySet) (field_name : string)
| QsFirst (qs : QuerySet)
| QsAnnotate (qs : QuerySet) (alias : string) (subquery : QuerySet)
    (output_field : PyValue).

(** The annotation names a queryset carries, oldest first. *)
Fixpoint annotations (qs : QuerySet) : list string :=
  match qs with
  | QsGiven _ => []
  | QsFilterPkOuterRef qs _ | QsValues qs _ | QsFirst qs => annotations qs
  | QsAnnotate qs alias _ _ => annotations qs ++ [alias]
  end.

(** The calls into Django that [_annotate] makes: each may raise (a
    FieldError for a name that does not resolve, say). *)
Inductive DjangoCall :=
| CallFilter (qs : QuerySet) (ref : string)
| CallValues (qs : QuerySet) (field_name : string)
| CallSlice (qs : QuerySet)
| CallSubquery (qs : QuerySet) (output_field : PyValue)
| CallAnnotate (qs : QuerySet) (alias : string) (subquery : QuerySet)
    (output_field : PyValue).

(** ** Attribute look-up through [OrmBoundField.__getattr__] *)

(** The name of the class of a descriptor, as it shows in an
    AttributeError. *)
Definition class_name (c : FieldClass) : string :=
  match c with
  | ClsBase => "OrmBaseField"
  | ClsFk => "OrmFkField"
  | ClsConcrete => "OrmConcreteField"
  | ClsRaw => "OrmRawField"
  | ClsCalculated _ => "OrmCalculatedField"
  | ClsAnnotated _ _ => "OrmAnnotatedField"
  | ClsFile _ => "OrmFileField"
  | ClsAggregate _ _ => "OrmAggregateField"
  end.

Definition has_no_attribute {A} (class attr : string) : Outcome A :=
  Raise (mkExc AttributeError
           ("'" +:+ class +:+ "' object has no attribute '" +:+ attr +:+ "'")).

(** [bound.name]: not an attribute of the bound field, so it is the
    descriptor's. *)
Definition bound_name (b : OrmBoundField) : Outcome string :=
  match field b with
  | Some f => Return (name f)
  | None => none_has_no_attribute "name"
  end.

(** [bound.admin] and [bound.field_type]: only [OrmAnnotatedField] sets
    them. *)
Definition bound_admin (b : OrmBoundField) : Outcome PyValue :=
  match field b with
  | Some f =>
      match cls f with
      | ClsAnnotated _ admin => Return admin
      | c => has_no_attribute (class_name c) "admin"
      end
  | None => none_has_no_attribute "admin"
  end.

Definition bound_field_type (b : OrmBoundField) : Outcome PyValue :=
  match field b with
  | Some f =>
      match cls f with
      | ClsAnnotated field_type _ => Return field_type
      | c => has_no_attribute (class_name c) "field_type"
      end
  | None => none_has_no_attribute "field_type"
  end.

(** [bound.model_name] is an attribute of the bound field itself, so
    [__getattr__] is not asked and the descriptor's [model_name] is not
    seen. *)
Definition getattr_model_name (b : OrmBoundField) : option string :=
  bound_model_name b.

(** ** Entity wrapper *)

(** The dataclass [OrmModel]. *)
Record OrmModel := mkOrmModel {
  fields : gmap string OrmBaseField;
  admin : option PyValue
}.

(** [OrmModel.root]. *)
Definition root (m : OrmModel) : bool :=
  match admin m with
  | Some a => truthy a
  | None => false
  end.

(** What the option [default_filters] of an admin can be: a list whose
    items are sequences of values, or something that is no list. *)
Inductive OptionValue :=
| OptList (items : list (list PyValue))
| OptOther (v : PyValue).

(** [(f, l, v) = item]: the unpacking raises unless there are three
    values. *)
Definition unpack3 (item : list PyValue)
    : Outcome (PyValue * PyValue * PyValue) :=
  match item with
  | [f; l; v] => Return (f, l, v)
  | [] => Raise (mkExc (OtherException "ValueError")
                   "not enough values to unpack (expected 3, got 0)")
  | [_] => Raise (mkExc (OtherException "ValueError")
                    "not enough values to unpack (expected 3, got 1)")
  | [_; _] => Raise (mkExc (OtherException "ValueError")
                       "not enough values to unpack (expected 3, got 2)")
  | _ => Raise (mkExc (OtherException "ValueError")
                  "too many values to unpack (expected 3)")
  end.

(** ** Sample instances of what the files import

    Used by the examples that run the definitions on concrete input. *)

Definition sample_s : list string -> string := String.concat "__".
Definition sample_annotation_path (path : list string) : string :=
  sample_s ("ddb" :: path).
Definition sample_type_name (t : BaseType) : string :=
  match t with
  | BooleanType => "boolean"
  | DateTimeType => "datetime"
  | DateType => "date"
  | DurationType => "duration"
  | NumberType => "number"
  | HTMLType => "html"
  | OtherType c => c
  end.
Definition sample_get_formatter (t : BaseType) (choices : list (string * string))
    : Outcome (PyValue -> Outcome PyValue) :=
  Return (fun v => Return v).
Definition sample_format_html (template : string) (args : list PyValue)
    : Outcome PyValue :=
  Return (PyStr template).

Definition sample_TYPES : list (string * BaseType) :=
  [("string", OtherType "StringType"); ("number", NumberType);
   ("boolean", BooleanType); ("datetime", DateTimeType); ("date", DateType);
   ("duration", DurationType); ("html", HTMLType);
   ("stringarray", OtherType "StringArrayType");
   ("numberarray", OtherType "NumberArrayType")].

Definition sample_arrays : list ArrayType :=
  [mkArrayType (OtherType "StringArrayType") (OtherType "StringType") None;
   mkArrayType (OtherType "NumberArrayType") NumberType None;
   mkArrayType (OtherType "NumberChoiceArrayType")
     (OtherType "NumberChoiceType") (Some (OtherType "NumberArrayType"))].

(** A concrete Number column [total], a raw field, a foreign key and a
    calculated field whose function always raises. *)
Definition total_field : OrmBaseField :=
  mkOrmBaseField ClsConcrete "shop.Order" "total" "Total"
    (Some NumberType) true (Some "number") true [].
Definition raw_field : OrmBaseField :=
  mkOrmBaseField ClsRaw "shop.Order" "pk" "PK"
    (Some NumberType) true (Some "number") true [].
Definition customer_field : OrmBaseField :=
  mkOrmBaseField ClsFk "shop.Order" "customer" "Customer"
    None false (Some "shop.Customer") false [].
Definition broken_func : Callable :=
  mkCallable false (fun _ => Raise (mkExc (OtherException "ValueError") "boom")).
Definition broken_field : OrmBaseField :=
  mkOrmBaseField (ClsCalculated broken_func) "shop.Order" "broken" "Broken"
    (Some HTMLType) false None true [].
Definition broken_storage : PyValue -> Outcome PyValue :=
  fun _ => Raise (mkExc (OtherException "ImproperlyConfigured") "no bucket").
Definition file_field : OrmBaseField :=
  mkOrmBaseField (ClsFile broken_storage) "shop.Order" "invoice" "Invoice"
    (Some HTMLType) true (Some "html") true [].
Definition sum_field : OrmBaseField :=
  mkOrmBaseField
    (ClsAggregate NumberType (fun x => Return (Sum (Ref x))))
    "number" "sum" "sum" (Some NumberType) true None false [].
Definition total_bound : OrmBoundField :=
  {| annotated := false; field := Some total_field; previous := Some blank;
     full_path := ["total"]; pretty_path := ["Total"];
     queryset_path := ["total"]; aggregate_clause := None;
     filter_ := true; having := false; bound_model_name := None |}.
Definition customer_bound : OrmBoundField :=
  {| annotated := false; field := Some customer_field; previous := Some blank;
     full_path := ["customer"]; pretty_path := ["Customer"];
     queryset_path := ["customer"]; aggregate_clause := None;
     filter_ := false; having := false; bound_model_name := None |}.

(** Sample instances of what [annotate] and [default_filters] call. *)
Definition sample_admin_get_queryset (admin request : PyValue)
    (fields : list string) : Outcome QuerySet :=
  Return (QsGiven 1).
Definition sample_django_raises (c : DjangoCall) : option PyExc := None.
Definition sample_django_refuses (c : DjangoCall) : option PyExc :=
  match c with
  | CallAnnotate _ _ _ _ =>
      Some (mkExc (OtherException "FieldError") "Cannot resolve keyword")
  | _ => None
  end.
Definition sample_get_option (admin : option PyValue) (option_name : string)
    : Outcome OptionValue :=
  Return (OptList [[PyStr "total"; PyStr "gt"; PyInt 5];
                   [PyStr "status"; PyStr "equals"; PyStr "open"]]).
Definition sample_json_dumps (v : PyValue) : Outcome string :=
  match v with
  | PyNone => Return "null"
  | PyBool true => Return "true"
  | PyBool false => Return "false"
  | PyInt n => Return (pretty n)
  | PyStr s => Return (String (ascii_of_nat 34) s +:+ String (ascii_of_nat 34) "")
  | PyObject _ _ =>
      Raise (mkExc TypeError "Object is not JSON serializable")
  end.

(** An annotated field [rating] of the admin of another entity, and a
    calculated field. *)
Definition rating_field : OrmBaseField :=
  mkOrmBaseField (ClsAnnotated (PyObject 3 true) (PyObject 4 true))
    "shop.Customer" "rating" "Rating"
    (Some NumberType) true (Some "number") true [].
Definition is_big_func : Callable :=
  mkCallable true (fun _ => Return (PyBool true)).
Definition is_big_field : OrmBaseField :=
  mkOrmBaseField (ClsCalculated is_big_func) "shop.Order" "is_big" "Is big"
    (Some BooleanType) false None true [].

(** Two models, a chain result with an annotated field, and an entity
    wrapper. *)
Definition order_model : Model := mkModel "shop" "Order".
Definition rating_bound : OrmBoundField :=
  {| annotated := true; field := Some rating_field;
     previous := Some customer_bound;
     full_path := ["customer"; "rating"];
     pretty_path := ["Customer"; "Rating"];
     queryset_path := [sample_s ["ddb"; "customer"; "rating"]];
     aggregate_clause := None; filter_ := true; having := false;
     bound_model_name := None |}.
Definition order_orm_model : OrmModel :=
  mkOrmModel ∅ (Some (PyObject 9 true)).
Definition string_filters : list (PyValue * PyValue * string) :=
  [(PyStr "status", PyStr "equals", "open")].
Definition sample_get_option_strings (admin : option PyValue)
    (option_name : string) : Outcome OptionValue :=
  Return (OptList [[PyStr "status"; PyStr "equals"; PyStr "open"]]).
Definition sample_get_option_bad (admin : option PyValue)
    (option_name : string) : Outcome OptionValue :=
  Return (OptList [[PyStr "status"; PyStr "equals"; PyStr "open"];
                   [PyStr "total"; PyStr "gt"]]).

Section data_browser.

(** *** What the two files import from outside *)

(** [util.s] and [util.annotation_path]. *)
Variable s : list string -> string.
Variable annotation_path : list string -> string.

(** The class attribute [name] of a semantic type, its [repr], and its
    [get_formatter(choices)]. *)
Variable type_name : BaseType -> string.
Variable type_repr : BaseType -> string.
Variable type_get_formatter :
  BaseType -> list (string * string) -> Outcome (PyValue -> Outcome PyValue).

(** [django.utils.html.format_html]. *)
Variable format_html : string -> list PyValue -> Outcome PyValue.

(** [types.TYPES] (name to class), [ArrayTypeMixin.__subclasses__()],
    [settings.DATABASES["default"]["ENGINE"]], and whether the import of
    [django.contrib.postgres.aggregates.ArrayAgg] succeeded. *)
Variable TYPES : list (string * BaseType).
Variable ArrayTypeMixin_subclasses : list ArrayType.
Variable ENGINE : string.
Variable ArrayAgg_imported : bool.

(** [orm_results.admin_get_queryset(admin, request, fields)],
    [helpers._get_option(admin, name)] and [json.dumps]. *)
Variable admin_get_queryset :
  PyValue -> PyValue -> list string -> Outcome QuerySet.
Variable _get_option : option PyValue -> string -> Outcome OptionValue.
Variable json_dumps : PyValue -> Outcome string.

(** Django itself: the exception a queryset call raises, if it raises. *)
Variable django_raises : DjangoCall -> option PyExc.

(** *** orm_fields.py: constructors *)

Definition OrmFkField (model_name name pretty_name : string)
    (rel_name : option string) : Outcome OrmBaseField :=
  OrmBaseField_init ClsFk model_name name pretty_name
    None false rel_name false [].

(** [OrmConcreteField.__init__], shared with the subclass [OrmRawField];
    [c] is the class being instantiated. *)
Definition OrmConcreteField_init (c : FieldClass)
    (model_name name pretty_name : string) (type_ : option BaseType)
    (rel_name : option string) (choices : option (list (string * string)))
    : Outcome OrmBaseField :=
  OrmBaseField_init c model_name name pretty_name
    type_ true rel_name true (default [] choices).

Definition OrmConcreteField := OrmConcreteField_init ClsConcrete.
Definition OrmRawField := OrmConcreteField_init ClsRaw.

Definition OrmCalculatedField (model_name name pretty_name : string)
    (func : Callable) : Outcome OrmBaseField :=
  let type_ := if boolean func then BooleanType else HTMLType in
  OrmBaseField_init (ClsCalculated func) model_name name pretty_name
    (Some type_) false None true [].

Definition OrmAnnotatedField (model_name name pretty_name : string)
    (type_ : option BaseType) (field_type admin : PyValue)
    (choices : option (list (string * string))) : Outcome OrmBaseField :=
  rel ← match type_ with
        | Some t => Return (type_name t)
        | None => none_has_no_attribute "name"
        end;
  OrmBaseField_init (ClsAnnotated field_type admin) model_name name
    pretty_name type_ true (Some rel) true (default [] choices).

Definition OrmFileField (model_name name pretty_name : string)
    (storage_url : PyValue -> Outcome PyValue) : Outcome OrmBaseField :=
  OrmConcreteField_init (ClsFile storage_url) model_name name pretty_name
    (Some HTMLType) (Some (type_name HTMLType)) None.

(** *** orm_aggregates.py: the aggregate descriptor *)

Definition OrmAggregateField (base_type : BaseType) (name : string)
    (agg_func : string -> Outcome Func) (type_ : option BaseType)
    : Outcome OrmBaseField :=
  OrmBaseField_init (ClsAggregate base_type agg_func) (type_name base_type)
    name (replace_char "_" " " name) type_ true None false [].

(** [OrmBoundField.path_str] and [OrmBoundField.queryset_path_str]. *)
Definition path_str (b : OrmBoundField) : string := s (full_path b).
Definition queryset_path_str (b : OrmBoundField) : string :=
  s (queryset_path b).

(** *** bind *)

Definition OrmFkField_bind (self : OrmBaseField)
    (previous : option OrmBoundField) : Outcome OrmBoundField :=
  let previous := or_blank previous in
  Return {| annotated := false; field := Some self;
            previous := Some previous;
            full_path := full_path previous ++ [name self];
            pretty_path := pretty_path previous ++ [pretty_name self];
            queryset_path := queryset_path previous ++ [name self];
            aggregate_clause := None; filter_ := false; having := false;
            bound_model_name := None |}.

Definition OrmConcreteField_bind (self : OrmBaseField)
    (previous : option OrmBoundField) : Outcome OrmBoundField :=
  let previous := or_blank previous in
  Return {| annotated := false; field := Some self;
            previous := Some previous;
            full_path := full_path previous ++ [name self];
            pretty_path := pretty_path previous ++ [pretty_name self];
            queryset_path := queryset_path previous ++ [name self];
            aggregate_clause := None; filter_ := true; having := false;
            bound_model_name := None |}.

Definition OrmRawField_bind (self : OrmBaseField)
    (previous : option OrmBoundField) : Outcome OrmBoundField :=
  match previous with
  | None => none_has_no_attribute "full_path"
  | Some p =>
      Return {| annotated := false; field := Some self;
                previous := Some p;
                full_path := full_path p ++ [name self];
                pretty_path := pretty_path p ++ [pretty_name self];
                queryset_path := queryset_path p;
                aggregate_clause := None; filter_ := true; having := false;
                bound_model_name := None |}
  end.

Definition OrmCalculatedField_bind (self : OrmBaseField)
    (previous : option OrmBoundField) : Outcome OrmBoundField :=
  let previous := or_blank previous in
  Return {| annotated := false; field := Some self;
            previous := Some previous;
            full_path := full_path previous ++ [name self];
            pretty_path := pretty_path previous ++ [pretty_name self];
            queryset_path := queryset_path previous ++ ["id"];
            aggregate_clause := None; filter_ := false; having := false;
            bound_model_name := Some (model_name self) |}.

Definition OrmAnnotatedField_bind (self : OrmBaseField)
    (previous : option OrmBoundField) : Outcome OrmBoundField :=
  let previous := or_blank previous in
  let full_path := full_path previous ++ [name self] in
  Return {| annotated := true; field := Some self;
            previous := Some previous;
            full_path := full_path;
            pretty_path := pretty_path previous ++ [pretty_name self];
            queryset_path := [s ("ddb" :: full_path)];
            aggregate_clause := None; filter_ := true; having := false;
            bound_model_name := None |}.

Definition OrmAggregateField_bind (self : OrmBaseField)
    (base_type : BaseType) (agg_func : string -> Outcome Func)
    (previous : option OrmBoundField) : Outcome OrmBoundField :=
  match previous with
  | None => _ ← py_assert false; none_has_no_attribute "type_"
  | Some p =>
      t ← bound_type_ p;
      _ ← py_assert (bool_decide (t = Some base_type));
      let full_path := full_path p ++ [name self] in
      clause ← agg_func (queryset_path_str p);
      Return {| annotated := false; field := Some self;
                previous := Some p;
                full_path := full_path;
                pretty_path := pretty_path p ++ [pretty_name self];
                queryset_path := [annotation_path full_path];
                aggregate_clause := Some clause;
                filter_ := false; having := true;
                bound_model_name := None |}
  end.

(** [field.bind(previous)], dispatched on the class of [field]. *)
Definition bind (self : OrmBaseField) (previous : option OrmBoundField)
    : Outcome OrmBoundField :=
  match cls self with
  | ClsBase =>
      Raise (mkExc AttributeError
               "'OrmBaseField' object has no attribute 'bind'")
  | ClsFk => OrmFkField_bind self previous
  | ClsConcrete | ClsFile _ => OrmConcreteField_bind self previous
  | ClsRaw => OrmRawField_bind self previous
  | ClsCalculated _ => OrmCalculatedField_bind self previous
  | ClsAnnotated _ _ => OrmAnnotatedField_bind self previous
  | ClsAggregate base_type agg_func =>
      OrmAggregateField_bind self base_type agg_func previous
  end.

(** The variants that take a missing [previous] for the blank root. *)
Definition starts_chain (c : FieldClass) : bool :=
  match c with
  | ClsFk | ClsConcrete | ClsCalculated _ | ClsAnnotated _ _ | ClsFile _ => true
  | _ => false
  end.

(** Binding a list of descriptors one after the other, each to the
    result of the one before; [start] is what the first one gets. *)
Fixpoint bind_chain (start : option OrmBoundField)
    (fields : list OrmBaseField) : Outcome (option OrmBoundField) :=
  match fields with
  | [] => Return start
  | f :: rest => b ← bind f start; bind_chain (Some b) rest
  end.

(** *** get_formatter *)

(** [OrmBaseField.get_formatter]. *)
Definition OrmBaseField_get_formatter (self : OrmBaseField)
    : Outcome (PyValue -> Outcome PyValue) :=
  match type_ self with
  | Some t => type_get_formatter t (choices self)
  | None => none_has_no_attribute "get_formatter"
  end.

Definition OrmCalculatedField_get_formatter (self : OrmBaseField)
    (func : Callable) : Outcome (PyValue -> Outcome PyValue) :=
  base_formatter ← OrmBaseField_get_formatter self;
  Return (fun obj =>
    match obj with
    | PyNone => Return PyNone
    | _ =>
        match call func obj with
        | Return value => base_formatter value
        | Raise e =>
            if is_Exception (exc_class e)
            then Return (PyStr (exc_str e))
            else Raise e
        end
    end).

Definition OrmFileField_get_formatter
    (storage_url : PyValue -> Outcome PyValue)
    : Outcome (PyValue -> Outcome PyValue) :=
  Return (fun value =>
    if negb (truthy value) then Return PyNone
    else
      try_except_Exception
        (url ← storage_url value; format_html link_template [url; value])
        (fun e => Return (PyStr (exc_str e)))).

(** [field.get_formatter()], dispatched on the class of [field]. *)
Definition get_formatter (self : OrmBaseField)
    : Outcome (PyValue -> Outcome PyValue) :=
  match cls self with
  | ClsCalculated func => OrmCalculatedField_get_formatter self func
  | ClsFile storage_url => OrmFileField_get_formatter storage_url
  | _ => OrmBaseField_get_formatter self
  end.

(** *** orm_aggregates.py: the registry *)

(** An entry of the registry: the aggregate function and the type of
    its result. *)
Abbreviation AggEntry := ((string -> Outcome Func) * BaseType)%type.

(** [d[type_][key] = value]: the inner dictionary is looked up (a
    [KeyError] when [type_] is no key) and updated in place. *)
Definition setitem2 (type_ : BaseType) (key : string) (value : AggEntry)
    (d : gmap BaseType (gmap string AggEntry))
    : Outcome (gmap BaseType (gmap string AggEntry)) :=
  match d !! type_ with
  | Some _ => Return (alter (insert key value) type_ d)
  | None => Raise (mkExc KeyError (type_repr type_))
  end.

Definition count_distinct : string -> Outcome Func :=
  fun x => Return (Count (Ref x) true).
Definition models_Max : string -> Outcome Func := fun x => Return (Max (Ref x)).
Definition models_Min : string -> Outcome Func := fun x => Return (Min (Ref x)).
Definition models_Avg : string -> Outcome Func := fun x => Return (Avg (Ref x)).
Definition models_StdDev : string -> Outcome Func :=
  fun x => Return (StdDev (Ref x)).
Definition models_Sum : string -> Outcome Func := fun x => Return (Sum (Ref x)).
Definition models_Variance : string -> Outcome Func :=
  fun x => Return (Variance (Ref x)).
Definition avg_duration : string -> Outcome Func :=
  fun x => Return (Avg (CastDuration (Ref x))).
Definition sum_duration : string -> Outcome Func :=
  fun x => Return (Sum (CastDuration (Ref x))).
Definition avg_boolean : string -> Outcome Func :=
  fun x => Return (Avg (Cast (Ref x) IntegerField)).
Definition sum_boolean : string -> Outcome Func :=
  fun x => Return (Sum (Cast (Ref x) IntegerField)).
(** [ArrayAgg] is [None] when its import failed; calling it then raises. *)
Definition array_agg_all : string -> Outcome Func :=
  fun x =>
    if ArrayAgg_imported
    then Return (ArrayAgg (Ref x) ValueEmptyList true (Ref x))
    else Raise (mkExc TypeError "'NoneType' object is not callable").

(** [TYPES.values()]. *)
Definition TYPES_values : list BaseType := TYPES.*2.

(** ["postgresql" in settings.DATABASES["default"]["ENGINE"]]: the
    engine has array aggregation. *)
Definition array_aggregation_enabled : bool :=
  str_contains "postgresql" ENGINE.

(** The module-level construction of [TYPE_AGGREGATES]. *)
Definition TYPE_AGGREGATES : Outcome (gmap BaseType (gmap string AggEntry)) :=
  let d := foldl (fun d type_ => <[type_ := ∅]> d) ∅ TYPES_values in
  d ← for_each
        (fun d type_ =>
           if bool_decide (type_ ≠ BooleanType)
           then setitem2 type_ "count" (count_distinct, NumberType) d
           else Return d)
        TYPES_values d;
  d ← for_each
        (fun d type_ =>
           d ← setitem2 type_ "max" (models_Max, type_) d;
           setitem2 type_ "min" (models_Min, type_) d)
        [DateTimeType; DateType; DurationType; NumberType] d;
  d ← setitem2 NumberType "average" (models_Avg, NumberType) d;
  d ← setitem2 NumberType "std_dev" (models_StdDev, NumberType) d;
  d ← setitem2 NumberType "sum" (models_Sum, NumberType) d;
  d ← setitem2 NumberType "variance" (models_Variance, NumberType) d;
  d ← setitem2 DurationType "average" (avg_duration, DurationType) d;
  d ← setitem2 DurationType "sum" (sum_duration, DurationType) d;
  d ← setitem2 BooleanType "average" (avg_boolean, NumberType) d;
  d ← setitem2 BooleanType "sum" (sum_boolean, NumberType) d;
  if array_aggregation_enabled
  then for_each
         (fun d array_type =>
            match raw_type array_type with
            | None =>
                setitem2 (element_type array_type) "all"
                  (array_agg_all, array_cls array_type) d
            | Some _ => Return d
            end)
         ArrayTypeMixin_subclasses d
  else Return d.

(** [get_aggregates_for_type]; it runs after the module body.  The
    comprehension builds one descriptor per entry of the inner
    dictionary. *)
Definition get_aggregates_for_type (type_ : BaseType)
    : Outcome (gmap string OrmBaseField) :=
  registry ← TYPE_AGGREGATES;
  inner ← match registry !! type_ with
          | Some inner => Return inner
          | None => Raise (mkExc KeyError (type_repr type_))
          end;
  items ← mapM
            (fun '(name, (func, res_type)) =>
               f ← OrmAggregateField type_ name func (Some res_type);
               Return (name, f))
            (map_to_list inner);
  Return (list_to_map items).

(** *** annotate *)

(** A call into Django: it raises what Django raises, and returns
    [result] otherwise. *)
Definition django_call {A} (c : DjangoCall) (result : A) : Outcome A :=
  match django_raises c with
  | Some e => Raise e
  | None => Return result
  end.

(** [OrmBoundField._annotate] and its override in
    [OrmBoundAnnotatedField], the calls in the order Python evaluates
    them: the alias, [admin_get_queryset], [.filter], [.values], the
    slice, [Subquery] and at last [qs.annotate]. *)
Definition _annotate (self : OrmBoundField) (request : PyValue)
    (qs : QuerySet) : Outcome QuerySet :=
  if annotated self then
    let alias := s (queryset_path self) in
    admin ← bound_admin self;
    field_name ← bound_name self;
    inner ← admin_get_queryset admin request [field_name];
    previous ← match previous self with
               | Some p => Return p
               | None => none_has_no_attribute "queryset_path"
               end;
    let ref := s (queryset_path previous ++ ["id"]) in
    filtered ← django_call (CallFilter inner ref) (QsFilterPkOuterRef inner ref);
    field_name ← bound_name self;
    values ← django_call (CallValues filtered field_name)
               (QsValues filtered field_name);
    first ← django_call (CallSlice values) (QsFirst values);
    field_type ← bound_field_type self;
    subquery ← django_call (CallSubquery first field_type) first;
    django_call (CallAnnotate qs alias subquery field_type)
      (QsAnnotate qs alias subquery field_type)
  else Return qs.

(** [OrmBoundField.annotate]. *)
Definition annotate (self : OrmBoundField) (request : PyValue)
    (qs : QuerySet) : Outcome QuerySet :=
  for_each (fun qs link => _annotate link request qs) (_lineage self) qs.

(** *** OrmModel.default_filters *)

Definition default_filters (self : OrmModel)
    : Outcome (list (PyValue * PyValue * PyValue)) :=
  default_filters ← _get_option (admin self) "default_filters";
  match default_filters with
  | OptOther _ => _ ← py_assert false; Return []
  | OptList items =>
      mapM (fun item =>
              '(f, l, v) ← unpack3 item;
              v ← match v with
                  | PyStr _ => Return v
                  | _ => PyStr <$> json_dumps v
                  end;
              Return (f, l, v))
           items
  end.

(** *** Classes of descriptors used in the statements *)

Definition is_annotated_cls (c : FieldClass) : bool :=
  match c with ClsAnnotated _ _ => true | _ => false end.
Definition is_aggregate_cls (c : FieldClass) : bool :=
  match c with ClsAggregate _ _ => true | _ => false end.
(** Foreign keys, concrete fields and file fields: the variants whose
    binding appends the name to [queryset_path]. *)
Definition is_plain_cls (c : FieldClass) : bool :=
  match c with ClsFk | ClsConcrete | ClsFile _ => true | _ => false end.

(** *** Views of the registry used in the statements *)

(** The aggregate names registered for [t] in a registry (none when
    [t] is no key). *)
Definition keys_at (d : gmap BaseType (gmap string AggEntry)) (t : BaseType)
    : gset string :=
  from_option dom ∅ (d !! t).

(** [t] is the [element_type] of an array type whose [raw_type] is
    [None]. *)
Definition is_raw_element_type (t : BaseType) : bool :=
  existsb
    (fun a => bool_decide (raw_type a = None) && bool_decide (element_type a = t))
    ArrayTypeMixin_subclasses.

(** The membership rules of the registry as the design states them:
    [count] for every type but Boolean; [max] and [min] for DateTime,
    Date, Duration and Number; [average], [std_dev], [sum] and
    [variance] for Number; [average] and [sum] for Duration and for
    Boolean; [all] for the element types of arrays when the engine has
    array aggregation. *)
Definition registered_names (t : BaseType) : gset string :=
  (if bool_decide (t ≠ BooleanType) then {["count"]} else ∅) ∪
  (if bool_decide (t ∈ [DateTimeType; DateType; DurationType; NumberType])
   then {["max"; "min"]} else ∅) ∪
  (if bool_decide (t = NumberType)
   then {["average"; "std_dev"; "sum"; "variance"]} else ∅) ∪
  (if bool_decide (t = DurationType ∨ t = BooleanType)
   then {["average"; "sum"]} else ∅) ∪
  (if array_aggregation_enabled && is_raw_element_type t
   then {["all"]} else ∅).

(** The registrations the module body makes, one constructor per
    assignment: the type, the name, the function and the result type. *)
Inductive registered : BaseType → string → AggEntry → Prop :=
| registered_count type_ :
    type_ ≠ BooleanType →
    registered type_ "count" (count_distinct, NumberType)
| registered_max type_ :
    type_ ∈ [DateTimeType; DateType; DurationType; NumberType] →
    registered type_ "max" (models_Max, type_)
| registered_min type_ :
    type_ ∈ [DateTimeType; DateType; DurationType; NumberType] →
    registered type_ "min" (models_Min, type_)
| registered_Number_average :
    registered NumberType "average" (models_Avg, NumberType)
| registered_Number_std_dev :
    registered NumberType "std_dev" (models_StdDev, NumberType)
| registered_Number_sum :
    registered NumberType "sum" (models_Sum, NumberType)
| registered_Number_variance :
    registered NumberType "variance" (models_Variance, NumberType)
| registered_Duration_average :
    registered DurationType "average" (avg_duration, DurationType)
| registered_Duration_sum :
    registered DurationType "sum" (sum_duration, DurationType)
| registered_Boolean_average :
    registered BooleanType "average" (avg_boolean, NumberType)
| registered_Boolean_sum :
    registered BooleanType "sum" (sum_boolean, NumberType)
| registered_all array_type :
    array_aggregation_enabled = true →
    array_type ∈ ArrayTypeMixin_subclasses →
    raw_type array_type = None →
    registered (element_type array_type) "all"
      (array_agg_all, array_cls array_type).

(** Every entry of a registry satisfies [P]. *)
Definition entries_satisfy (P : BaseType → string → AggEntry → Prop)
    (d : gmap BaseType (gmap string AggEntry)) : Prop :=
  ∀ t inner k v, d !! t = Some inner → inner !! k = Some v → P t k v.

(** The descriptor [get_aggregates_for_type] builds from an entry. *)
Definition aggregate_descriptor (type_ : BaseType) (key : string)
    (entry : AggEntry) : OrmBaseField :=
  mkOrmBaseField (ClsAggregate type_ entry.1) (type_name type_) key
    (replace_char "_" " " key) (Some entry.2) true None false [].

(** ** Properties of orm_fields.py *)

(** When [__post_init__] passes. *)
Lemma post_init_Return f :
  __post_init__ f = Return tt ↔
  (type_ f = None → str_truthy (rel_name f) = true) ∧
  (concrete f = true ∨ can_pivot f = true → is_Some (type_ f)).
Proof.
  unfold __post_init__, py_assert.
  destruct (type_ f) as [t|], (str_truthy (rel_name f)),
    (concrete f), (can_pivot f); cbn; split;
    try (intros _; split; [done | eauto; by intros [|]]);
    try done;
    try (intros [H1 H2]; exfalso;
         first [ by specialize (H1 eq_refl)
               | by (destruct H2 as [? [=]]; auto) ]).
Qed.

Lemma post_init_cases f :
  __post_init__ f = Return tt ∨ __post_init__ f = Raise (mkExc AssertionError "").
Proof.
  unfold __post_init__, py_assert.
  destruct (type_ f), (str_truthy (rel_name f)), (concrete f), (can_pivot f);
    cbn; auto.
Qed.

Lemma str_truthy_Some o : str_truthy o = true → ∃ r, o = Some r.
Proof. destruct o; [eauto | discriminate]. Qed.

(** C9: a descriptor that [OrmBaseField.__init__] returns has a semantic
    type when it is concrete or pivotable, and has a related-entity name
    when it has no semantic type; arguments that break either condition
    make the construction raise an AssertionError. *)
Theorem OrmBaseField_init_invariant :
  ∀ c mn n pn (t : option BaseType) conc (rel : option string) piv ch,
    (∀ f, OrmBaseField_init c mn n pn t conc rel piv ch = Return f →
       (concrete f = true ∨ can_pivot f = true → is_Some (type_ f)) ∧
       (type_ f = None → ∃ r, rel_name f = Some r)) ∧
    (¬ (conc = true ∨ piv = true → is_Some t) ∨ ¬ (t = None → is_Some rel) →
     OrmBaseField_init c mn n pn t conc rel piv ch
     = Raise (mkExc AssertionError "")).
Proof.
  intros c mn n pn t conc rel piv ch.
  unfold OrmBaseField_init.
  set (f := mkOrmBaseField c mn n pn t conc rel piv ch).
  pose proof (post_init_Return f) as HR.
  destruct (post_init_cases f) as [Hok | Hbad]; rewrite ?Hok, ?Hbad; cbn.
  - apply HR in Hok as [H1 H2]. split.
    + intros f' [= <-]. split; [exact H2 |].
      intros Ht. apply str_truthy_Some. by apply H1.
    + intros [Hn | Hn]; exfalso; apply Hn.
      * exact H2.
      * intros Ht. destruct (str_truthy_Some _ (H1 Ht)) as [r Hr].
        cbn in Hr. rewrite Hr. eauto.
  - split; [intros f' [=] | done].
Qed.

(** C4: binding a concrete field with no previous bound field gives
    [filter_ = True], [having = False] and the one-element
    [queryset_path] made of the field's name. *)
Theorem OrmConcreteField_bind_root (self : OrmBaseField) :
  cls self = ClsConcrete →
  ∃ b, bind self None = Return b ∧
       filter_ b = true ∧ having b = false ∧
       queryset_path b = [name self].
Proof.
  intros Hc. unfold bind. rewrite Hc. eexists. split; [reflexivity |].
  by cbn.
Qed.

(** C5: binding a raw field to a previous bound field keeps that
    field's [queryset_path], appends one element to [full_path] and to
    [pretty_path], and sets [filter_]. *)
Theorem OrmRawField_bind_previous (self : OrmBaseField) (p : OrmBoundField) :
  cls self = ClsRaw →
  ∃ b, bind self (Some p) = Return b ∧
       queryset_path b = queryset_path p ∧
       full_path b = full_path p ++ [name self] ∧
       pretty_path b = pretty_path p ++ [pretty_name self] ∧
       length (full_path b) = S (length (full_path p)) ∧
       length (pretty_path b) = S (length (pretty_path p)) ∧
       filter_ b = true.
Proof.
  intros Hc. unfold bind. rewrite Hc. eexists. split; [reflexivity |].
  cbn. rewrite !length_app. cbn. repeat split; lia.
Qed.

Lemma bind_starts_chain self :
  starts_chain (cls self) = true →
  bind self None = bind self (Some blank) ∧
  ∃ b, bind self None = Return b ∧ previous b = Some blank.
Proof.
  unfold bind. destruct (cls self); try discriminate; intros _;
    (split; [reflexivity | eexists; split; reflexivity]).
Qed.

(** C10: a raw field bound with no previous bound field raises (the
    attribute access on [None]); it does not fall back to the blank
    root as the foreign-key, concrete, calculated and annotated fields
    do, so no chain can begin with it. *)
Theorem OrmRawField_bind_None (self : OrmBaseField) :
  cls self = ClsRaw →
  bind self None = none_has_no_attribute "full_path" ∧
  (∀ rest, bind_chain None (self :: rest) = none_has_no_attribute "full_path") ∧
  (∀ other, cls other = ClsFk ∨ cls other = ClsConcrete ∨
            (∃ func, cls other = ClsCalculated func) ∨
            (∃ ft admin, cls other = ClsAnnotated ft admin) →
     ∃ b, bind other None = Return b ∧ previous b = Some blank).
Proof.
  intros Hc. split; [| split].
  - unfold bind. by rewrite Hc.
  - intros rest. cbn. unfold bind. by rewrite Hc.
  - intros other Hother. apply bind_starts_chain.
    destruct Hother as [-> | [-> | [[? ->] | (? & ? & ->)]]]; reflexivity.
Qed.

(** C2: an aggregate field bound to a previous bound field whose
    descriptor has another semantic type than the aggregate's
    [base_type] (or none at all) raises an AssertionError, whatever the
    two types are. *)
Theorem OrmAggregateField_bind_mismatch
    (self : OrmBaseField) (base_type : BaseType)
    (agg_func : string -> Outcome Func) (p : OrmBoundField)
    (f : OrmBaseField) :
  cls self = ClsAggregate base_type agg_func →
  field p = Some f →
  type_ f ≠ Some base_type →
  bind self (Some p) = Raise (mkExc AssertionError "").
Proof.
  intros Hc Hf Hne. unfold bind. rewrite Hc. cbn.
  unfold bound_type_. rewrite Hf. cbn.
  by rewrite bool_decide_eq_false_2.
Qed.

(** The blank root has no descriptor: the aggregate's look-up of its
    type fails before the comparison. *)
Lemma OrmAggregateField_bind_blank self base_type agg_func :
  cls self = ClsAggregate base_type agg_func →
  bind self (Some blank) = none_has_no_attribute "type_".
Proof. intros Hc. unfold bind. by rewrite Hc. Qed.

Lemma OrmAggregateField_bind_None self base_type agg_func :
  cls self = ClsAggregate base_type agg_func →
  bind self None = Raise (mkExc AssertionError "").
Proof. intros Hc. unfold bind. by rewrite Hc. Qed.

(** C3: an aggregate field bound to a previous bound field of its
    [base_type] gives, when its aggregate function returns a clause, a
    bound field with [having = True] whose [queryset_path] is the single
    identifier [annotation_path(full_path)]; when the aggregate function
    raises, so does [bind]. *)
Theorem OrmAggregateField_bind_match
    (self : OrmBaseField) (base_type : BaseType)
    (agg_func : string -> Outcome Func) (p : OrmBoundField)
    (f : OrmBaseField) :
  cls self = ClsAggregate base_type agg_func →
  field p = Some f →
  type_ f = Some base_type →
  (∀ clause, agg_func (queryset_path_str p) = Return clause →
     ∃ b, bind self (Some p) = Return b ∧
          having b = true ∧
          full_path b = full_path p ++ [name self] ∧
          queryset_path b = [annotation_path (full_path b)] ∧
          length (queryset_path b) = 1 ∧
          aggregate_clause b = Some clause) ∧
  (∀ e, agg_func (queryset_path_str p) = Raise e →
     bind self (Some p) = Raise e).
Proof.
  intros Hc Hf Ht. unfold bind. rewrite Hc. cbn.
  unfold bound_type_. rewrite Hf, Ht. cbn.
  rewrite bool_decide_eq_true_2 by done. cbn.
  split.
  - intros clause ->. cbn. eexists. split; [reflexivity |]. by cbn.
  - by intros e ->.
Qed.

(** One binding appends the descriptor's names to the paths of what it
    is bound to. *)
Lemma bind_paths self start b :
  bind self start = Return b →
  full_path b = full_path (or_blank start) ++ [name self] ∧
  pretty_path b = pretty_path (or_blank start) ++ [pretty_name self].
Proof.
  unfold bind, OrmRawField_bind, OrmAggregateField_bind.
  destruct (cls self); try discriminate;
    try (intros [= <-]; by cbn).
  - destruct start; [intros [= <-]; by cbn | discriminate].
  - destruct start as [p|]; [| discriminate]. cbn.
    destruct (bound_type_ p) as [t|]; [| discriminate]. cbn.
    destruct (bool_decide (t = Some base_type)); [| discriminate]. cbn.
    destruct (agg_func _); [| discriminate]. cbn.
    intros [= <-]. by cbn.
Qed.

Lemma bind_chain_paths fields : ∀ start r,
  bind_chain start fields = Return r →
  full_path (or_blank r) = full_path (or_blank start) ++ (name <$> fields) ∧
  pretty_path (or_blank r)
  = pretty_path (or_blank start) ++ (pretty_name <$> fields).
Proof.
  induction fields as [| f rest IH]; intros start r; cbn.
  - intros [= <-]. by rewrite !app_nil_r.
  - destruct (bind f start) as [b|] eqn:Hb; [| discriminate]. cbn.
    intros Hr. apply IH in Hr as [-> ->]. cbn.
    apply bind_paths in Hb as [-> ->].
    by rewrite <- !app_assoc.
Qed.

(** A chain of descriptors that can start a chain, with raw fields
    allowed after the first hop, always binds. *)
Lemma bind_chain_total fields : ∀ start,
  Forall (fun f => starts_chain (cls f) = true ∨ cls f = ClsRaw) fields →
  (∀ f, head fields = Some f → start = None → starts_chain (cls f) = true) →
  ∃ r, bind_chain start fields = Return r.
Proof.
  induction fields as [| f rest IH]; intros start Hall Hhead; cbn.
  - eauto.
  - inversion Hall as [| ? ? Hf Hrest]; subst.
    assert (∃ b, bind f start = Return b) as [b ->].
    { destruct Hf as [Hf | Hf].
      - unfold bind. destruct (cls f); try discriminate; cbn; eauto.
      - unfold bind. rewrite Hf. destruct start as [p|]; cbn; [eauto |].
        specialize (Hhead f eq_refl eq_refl). by rewrite Hf in Hhead. }
    cbn. apply IH; [done | intros ? ? [=]].
Qed.

(** C6: when a chain of descriptors is bound hop by hop from the root
    (no previous bound field, or the blank one), the result's
    [full_path] and [pretty_path] have one entry per hop, and the
    entries of [pretty_path] are the descriptors' display names in
    order. *)
Theorem bind_chain_path_lengths
    (fields : list OrmBaseField) (start r : option OrmBoundField) :
  start = None ∨ start = Some blank →
  bind_chain start fields = Return r →
  length (full_path (or_blank r)) = length fields ∧
  length (pretty_path (or_blank r)) = length fields ∧
  pretty_path (or_blank r) = pretty_name <$> fields ∧
  (∀ i f, fields !! i = Some f →
          pretty_path (or_blank r) !! i = Some (pretty_name f)).
Proof.
  intros Hstart Hr. apply bind_chain_paths in Hr as [Hfull Hpretty].
  assert (or_blank start = blank) as Hb by (by destruct Hstart as [-> | ->]).
  rewrite Hb in Hfull, Hpretty. cbn in Hfull, Hpretty.
  rewrite Hfull, Hpretty, !length_fmap. repeat split.
  intros i f Hi. by rewrite list_lookup_fmap, Hi.
Qed.

(** C7: when the function of a calculated field raises an exception on
    a row object, the field's formatter returns the exception's string
    form for that row. *)
Theorem OrmCalculatedField_formatter_catches
    (self : OrmBaseField) (func : Callable) (t : BaseType)
    (base_formatter : PyValue -> Outcome PyValue) (obj : PyValue) (e : PyExc) :
  cls self = ClsCalculated func →
  type_ self = Some t →
  type_get_formatter t (choices self) = Return base_formatter →
  obj ≠ PyNone →
  call func obj = Raise e →
  is_Exception (exc_class e) = true →
  ∃ format, get_formatter self = Return format ∧
            format obj = Return (PyStr (exc_str e)).
Proof.
  intros Hc Ht Hbase Hobj Hcall He.
  unfold get_formatter, OrmCalculatedField_get_formatter,
    OrmBaseField_get_formatter.
  rewrite Hc, Ht, Hbase. cbn. eexists. split; [reflexivity |].
  cbn. rewrite Hcall, He. by destruct obj.
Qed.

(** C8: the formatter of a file field returns [None] for every false
    value, and the string form of the exception for every other value
    whose storage URL look-up raises one. *)
Theorem OrmFileField_formatter
    (self : OrmBaseField) (storage_url : PyValue -> Outcome PyValue) :
  cls self = ClsFile storage_url →
  ∃ format, get_formatter self = Return format ∧
    (∀ value, truthy value = false → format value = Return PyNone) ∧
    (∀ value e, truthy value = true →
                storage_url value = Raise e →
                is_Exception (exc_class e) = true →
                format value = Return (PyStr (exc_str e))).
Proof.
  intros Hc. unfold get_formatter, OrmFileField_get_formatter. rewrite Hc.
  eexists. split; [reflexivity |]. cbn. split.
  - by intros value ->.
  - intros value e -> -> He. cbn. by rewrite He.
Qed.

(** ** Properties of orm_aggregates.py *)

Lemma setitem2_spec t k v (d : gmap BaseType (gmap string AggEntry)) :
  t ∈ dom d →
  ∃ d', setitem2 t k v d = Return d' ∧ dom d' = dom d ∧
        ∀ t', keys_at d' t'
              = (if decide (t = t') then {[k]} else ∅) ∪ keys_at d t'.
Proof.
  intros [inner Hin]%elem_of_dom. unfold setitem2. rewrite Hin.
  eexists. split; [reflexivity |]. split; [apply dom_alter_L |].
  intros t'. unfold keys_at. destruct (decide (t = t')) as [<- | Hne].
  - rewrite lookup_alter_eq, Hin. cbn. apply dom_insert_L.
  - rewrite lookup_alter_ne by done. by rewrite (left_id_L ∅ (∪)).
Qed.

Lemma setitem2_missing t k v (d : gmap BaseType (gmap string AggEntry)) :
  t ∉ dom d → setitem2 t k v d = Raise (mkExc KeyError (type_repr t)).
Proof.
  intros Hn%not_elem_of_dom. unfold setitem2. by rewrite Hn.
Qed.

(** A loop whose body registers one name for some of its items. *)
Lemma for_each_setitem2_spec {A} (body : _ → A → _) (cond : A → bool)
    (key : A → BaseType) (k : string) (val : A → AggEntry) (xs : list A) :
  (∀ d x, body d x
          = if cond x then setitem2 (key x) k (val x) d else Return d) →
  ∀ d : gmap BaseType (gmap string AggEntry),
    (∀ x, x ∈ xs → cond x = true → key x ∈ dom d) →
    ∃ d', for_each body xs d = Return d' ∧ dom d' = dom d ∧
          ∀ t, keys_at d' t
               = (if existsb (fun x => cond x && bool_decide (key x = t)) xs
                  then {[k]} else ∅) ∪ keys_at d t.
Proof.
  intros Hbody. induction xs as [| x xs IH]; intros d Hdom; cbn.
  - exists d. split; [done |]. split; [done |].
    intros t. by rewrite (left_id_L ∅ (∪)).
  - rewrite Hbody. destruct (cond x) eqn:Hc; cbn.
    + destruct (setitem2_spec (key x) k (val x) d) as (d1 & -> & Hd1 & Hk1).
      { apply Hdom; [left | done]. }
      cbn. destruct (IH d1) as (d' & -> & Hd' & Hk').
      { intros y Hy Hcy. rewrite Hd1. apply Hdom; [by right | done]. }
      eexists. split; [reflexivity |]. split; [congruence |].
      intros t. rewrite Hk', Hk1.
      destruct (decide (key x = t)) as [Heq | Hne].
      * rewrite (bool_decide_eq_true_2 _ Heq). cbn.
        destruct (existsb _ xs); clear; set_solver.
      * rewrite (bool_decide_eq_false_2 _ Hne). cbn.
        by rewrite (left_id_L ∅ (∪) (keys_at d t)).
    + destruct (IH d) as (d' & -> & Hd' & Hk').
      { intros y Hy Hcy. apply Hdom; [by right | done]. }
      eauto.
Qed.

(** The dictionary comprehension that starts the registry. *)
Lemma initial_registry_spec (l : list BaseType) :
  ∀ d : gmap BaseType (gmap string AggEntry),
    (∀ t, keys_at d t = ∅) →
    dom (foldl (fun d type_ => <[type_ := ∅]> d) d l) = list_to_set l ∪ dom d ∧
    ∀ t, keys_at (foldl (fun d type_ => <[type_ := ∅]> d) d l) t = ∅.
Proof.
  induction l as [| x l IH]; intros d Hd; cbn.
  - split; [clear; set_solver | done].
  - destruct (IH (<[x := ∅]> d)) as [Hdom Hkeys].
    { intros t. unfold keys_at. destruct (decide (x = t)) as [<- | Hne].
      - rewrite lookup_insert_eq. cbn. apply dom_empty_L.
      - rewrite lookup_insert_ne by done. apply Hd. }
    split; [| done]. rewrite Hdom, dom_insert_L. clear; set_solver.
Qed.

(** Which types the [count] loop reaches. *)
Lemma existsb_count_loop (l : list BaseType) t :
  t ∈ l →
  existsb (fun x => bool_decide (x ≠ BooleanType) && bool_decide (x = t)) l
  = bool_decide (t ≠ BooleanType).
Proof.
  intros Ht. apply Bool.eq_iff_eq_true.
  rewrite existsb_exists, bool_decide_eq_true. split.
  - intros (x & _ & [H1 H2]%andb_true_iff).
    apply bool_decide_eq_true in H1, H2. by subst.
  - intros Hne. exists t. split; [by apply list_elem_of_In |].
    apply andb_true_iff. by rewrite !bool_decide_eq_true.
Qed.

(** The loop over the array types, run only when the engine has array
    aggregation. *)
Lemma array_loop_spec (d : gmap BaseType (gmap string AggEntry)) :
  (∀ a, a ∈ ArrayTypeMixin_subclasses → raw_type a = None →
        element_type a ∈ dom d) →
  ∃ d', (if array_aggregation_enabled
         then for_each
                (fun d array_type =>
                   match raw_type array_type with
                   | None =>
                       setitem2 (element_type array_type) "all"
                         (array_agg_all, array_cls array_type) d
                   | Some _ => Return d
                   end) ArrayTypeMixin_subclasses d
         else Return d) = Return d' ∧
        dom d' = dom d ∧
        ∀ t, keys_at d' t
             = (if array_aggregation_enabled && is_raw_element_type t
                then {["all"]} else ∅) ∪ keys_at d t.
Proof.
  intros Helem. destruct array_aggregation_enabled; cbn.
  2: { exists d. split; [done |]. split; [done |].
       intros t. by rewrite (left_id_L ∅ (∪)). }
  apply (for_each_setitem2_spec _
           (fun a => bool_decide (raw_type a = None)) element_type "all"
           (fun a => (array_agg_all, array_cls a))).
  - intros d0 a. by destruct (raw_type a).
  - intros a Ha Hraw%bool_decide_eq_true. by apply Helem.
Qed.

(** ** More properties of orm_fields.py *)

(** *** Model names *)

Lemma app_sep_inj (c : ascii) (a a' b b' : string) :
  c ∉ list_ascii_of_string a →
  c ∉ list_ascii_of_string a' →
  a +:+ String c b = a' +:+ String c b' →
  a = a' ∧ b = b'.
Proof.
  revert a'. induction a as [| x a IH]; intros [| x' a'] Ha Ha'; cbn.
  - by intros [= ->].
  - intros [= <- _]. exfalso. apply Ha'. cbn. by left.
  - intros [= -> _]. exfalso. apply Ha. cbn. by left.
  - intros [= -> Heq]. cbn in Ha, Ha'.
    apply not_elem_of_cons in Ha as [_ Ha], Ha' as [_ Ha'].
    destruct (IH a' Ha Ha' Heq) as [-> ->]. done.
Qed.

(** X1: a model is determined by its name with a one-character separator
    that does not occur in the application labels. *)
Theorem get_model_name_inj (m1 m2 : Model) (c : ascii) :
  c ∉ list_ascii_of_string (app_label m1) →
  c ∉ list_ascii_of_string (app_label m2) →
  get_model_name m1 (Some (String c "")) = get_model_name m2 (Some (String c "")) →
  m1 = m2.
Proof.
  intros H1 H2. unfold get_model_name. cbn.
  destruct m1 as [a1 n1], m2 as [a2 n2]. cbn in *.
  intros Heq. by destruct (app_sep_inj c a1 a2 n1 n2 H1 H2 Heq) as [-> ->].
Qed.

(** The omitted separator is the dot. *)
Lemma get_model_name_default (m : Model) :
  get_model_name m None = get_model_name m (Some ".").
Proof. reflexivity. Qed.

(** *** Constructors *)

(** X2: a foreign-key descriptor is built exactly when [rel_name] is a
    non-empty string; it then has no type and is neither concrete nor
    pivotable.  Otherwise the construction raises an AssertionError. *)
Theorem OrmFkField_constructs_iff (mn n pn : string) (rel : option string) :
  ((∃ r, rel = Some r ∧ r ≠ "") →
   OrmFkField mn n pn rel
   = Return (mkOrmBaseField ClsFk mn n pn None false rel false [])) ∧
  (rel = None ∨ rel = Some "" →
   OrmFkField mn n pn rel = Raise (mkExc AssertionError "")).
Proof.
  split.
  - intros (r & -> & Hr). unfold OrmFkField, OrmBaseField_init, __post_init__.
    cbn. destruct r; [done | reflexivity].
  - by intros [-> | ->].
Qed.

(** X3: the constructors that take a type need it: without one, a concrete
    or raw field and an aggregate raise an AssertionError whatever the
    related name is, and an annotated field raises an AttributeError; with
    one they are built, whatever the related name is. *)
Theorem typed_constructors_need_type
    (mn n pn : string) (rel : option string)
    (ch : option (list (string * string))) :
  (∀ c, OrmConcreteField_init c mn n pn None rel ch
        = Raise (mkExc AssertionError "")) ∧
  (∀ c t, OrmConcreteField_init c mn n pn (Some t) rel ch
          = Return (mkOrmBaseField c mn n pn (Some t) true rel true
                      (default [] ch))) ∧
  (∀ ft admin, OrmAnnotatedField mn n pn None ft admin ch
               = none_has_no_attribute "name") ∧
  (∀ ft admin t, OrmAnnotatedField mn n pn (Some t) ft admin ch
                 = Return (mkOrmBaseField (ClsAnnotated ft admin) mn n pn
                             (Some t) true (Some (type_name t)) true
                             (default [] ch))) ∧
  (∀ bt func, OrmAggregateField bt n func None
              = Raise (mkExc AssertionError "")).
Proof.
  repeat split; intros; try reflexivity.
  unfold OrmConcreteField_init, OrmBaseField_init, __post_init__. cbn.
  by destruct (str_truthy rel).
Qed.

(** X4: a calculated field and a file field are always built: the first is
    Boolean when its function is marked boolean and HTML otherwise, and
    is pivotable but not concrete; the second is a concrete HTML field. *)
Theorem OrmCalculatedField_OrmFileField_construct
    (mn n pn : string) (func : Callable)
    (storage_url : PyValue -> Outcome PyValue) :
  (∃ f, OrmCalculatedField mn n pn func = Return f ∧
        cls f = ClsCalculated func ∧
        type_ f = Some (if boolean func then BooleanType else HTMLType) ∧
        concrete f = false ∧ can_pivot f = true ∧ rel_name f = None) ∧
  (∃ f, OrmFileField mn n pn storage_url = Return f ∧
        cls f = ClsFile storage_url ∧
        type_ f = Some HTMLType ∧
        concrete f = true ∧ can_pivot f = true ∧ choices f = []).
Proof.
  split; eexists; (split; [reflexivity |]); by cbn.
Qed.

(** *** What a binding sets *)

Lemma bind_Return_inv self start b :
  bind self start = Return b →
  field b = Some self ∧
  previous b = Some (or_blank start) ∧
  annotated b = is_annotated_cls (cls self) ∧
  having b = is_aggregate_cls (cls self) ∧
  (is_Some (aggregate_clause b) ↔ having b = true) ∧
  (filter_ b = true → having b = false).
Proof.
  unfold bind, OrmRawField_bind, OrmAggregateField_bind.
  destruct (cls self) eqn:Hc; try discriminate;
    try (intros [= <-]; cbn; repeat split; try done; by intros [? ?]).
  - destruct start as [p|]; [| discriminate]. intros [= <-]. cbn.
    repeat split; try done; by intros [? ?].
  - destruct start as [p|]; [| discriminate]. cbn.
    destruct (bound_type_ p) as [t|]; [| discriminate]. cbn.
    destruct (bool_decide (t = Some base_type)); [| discriminate]. cbn.
    destruct (agg_func _); [| discriminate]. cbn.
    intros [= <-]. cbn. repeat split; try done; eauto.
Qed.

(** X5: whatever is bound and whatever it is bound to, the result refers to
    its descriptor and has a previous bound field (the blank root when
    there was none); it is never both filterable and having; and it
    carries an aggregate clause exactly when it is having, which is
    exactly when the descriptor is an aggregate. *)
Theorem bind_filter_having_exclusive
    (self : OrmBaseField) (start : option OrmBoundField) (b : OrmBoundField) :
  bind self start = Return b →
  field b = Some self ∧
  previous b = Some (or_blank start) ∧
  ¬ (filter_ b = true ∧ having b = true) ∧
  (is_Some (aggregate_clause b) ↔ having b = true) ∧
  (having b = true ↔ ∃ bt func, cls self = ClsAggregate bt func).
Proof.
  intros (Hf & Hp & _ & Hh & Hc & Hfh)%bind_Return_inv.
  split; [done |]. split; [done |]. split; [| split; [done |]].
  - intros [H1 H2]. rewrite (Hfh H1) in H2. discriminate.
  - rewrite Hh. destruct (cls self); cbn; split;
      try discriminate; try (by intros (? & ? & ?)); eauto.
Qed.

(** *** Chains *)

Lemma bind_chain_app fields1 fields2 start :
  bind_chain start (fields1 ++ fields2)
  = r ← bind_chain start fields1; bind_chain r fields2.
Proof.
  revert start. induction fields1 as [| f rest IH]; intros start; cbn.
  - done.
  - destruct (bind f start) as [b|]; cbn; [apply IH | done].
Qed.

Lemma bind_chain_snoc fields f start :
  bind_chain start (fields ++ [f])
  = r ← bind_chain start fields; b ← bind f r; Return (Some b).
Proof.
  rewrite bind_chain_app. destruct (bind_chain start fields) as [r|]; cbn;
    [| done]. by destruct (bind f r).
Qed.

Lemma bind_chain_full_path_names_aux fields r :
  bind_chain None fields = Return r →
  full_path (or_blank r) = name <$> fields.
Proof.
  intros Hr. by apply bind_chain_paths in Hr as [-> _].
Qed.

(** X6: the [full_path] of a chain bound from the root lists the
    programmatic names of its descriptors in order. *)
Theorem bind_chain_full_path_names
    (fields : list OrmBaseField) (r : option OrmBoundField) :
  bind_chain None fields = Return r →
  full_path (or_blank r) = name <$> fields ∧
  (∀ i f, fields !! i = Some f → full_path (or_blank r) !! i = Some (name f)).
Proof.
  intros Hr%bind_chain_full_path_names_aux. split; [done |].
  intros i f Hi. by rewrite Hr, list_lookup_fmap, Hi.
Qed.

(** X7: a chain of foreign keys, concrete fields and file fields always
    binds, and its [queryset_path] is its [full_path]: the names of the
    descriptors. *)
Theorem bind_chain_plain_queryset_path (fields : list OrmBaseField) :
  Forall (fun f => is_plain_cls (cls f) = true) fields →
  ∃ r, bind_chain None fields = Return r ∧
       queryset_path (or_blank r) = name <$> fields ∧
       queryset_path (or_blank r) = full_path (or_blank r).
Proof.
  induction fields as [| f fields IH] using rev_ind; intros Hall.
  - exists None. by cbn.
  - apply Forall_app in Hall as [Hall Hf].
    destruct (IH Hall) as (r & Hr & Hq & Hqf).
    rewrite Forall_singleton in Hf.
    rewrite bind_chain_snoc, Hr. cbn.
    assert (∃ b, bind f r = Return b ∧
                 queryset_path b = queryset_path (or_blank r) ++ [name f] ∧
                 full_path b = full_path (or_blank r) ++ [name f])
      as (b & -> & Hb & Hbf).
    { unfold bind. destruct (cls f); try discriminate Hf;
        eexists; (split; [reflexivity |]); by cbn. }
    cbn. eexists. split; [reflexivity |]. cbn.
    rewrite Hb, Hbf, <- Hqf, Hq, fmap_app. done.
Qed.

(** One binding keeps [queryset_path] no longer than [full_path], and
    non-empty unless a raw field was bound to the blank root. *)
Lemma bind_queryset_path_bounds self start b :
  bind self start = Return b →
  (start = None ∨ queryset_path (or_blank start) ≠ []) →
  (length (queryset_path (or_blank start))
   ≤ length (full_path (or_blank start)))%nat →
  queryset_path b ≠ [] ∧
  (length (queryset_path b) ≤ length (full_path b))%nat.
Proof.
  unfold bind, OrmRawField_bind, OrmAggregateField_bind.
  destruct (cls self); try discriminate.
  1-2, 4-6: intros [= <-] _ Hle; cbn; rewrite ?length_app; cbn;
    (split; [by destruct (queryset_path (or_blank start)) | lia]).
  - destruct start as [p|]; [| discriminate].
    intros [= <-] [? | Hne] Hle; [done |]. cbn in *.
    rewrite length_app. cbn. split; [done | lia].
  - destruct start as [p|]; [| discriminate]. cbn.
    destruct (bound_type_ p) as [t|]; [| discriminate]. cbn.
    destruct (bool_decide (t = Some base_type)); [| discriminate]. cbn.
    destruct (agg_func _); [| discriminate]. cbn.
    intros [= <-] _ Hle. cbn. rewrite length_app. cbn. split; [done | lia].
Qed.

(** X8: every bound field reached by binding at least one descriptor from a
    missing previous has a non-empty [queryset_path], which is never
    longer than its [full_path]. *)
Theorem bind_chain_queryset_path_nonempty
    (fields : list OrmBaseField) (b : OrmBoundField) :
  fields ≠ [] →
  bind_chain None fields = Return (Some b) →
  queryset_path b ≠ [] ∧
  (length (queryset_path b) ≤ length (full_path b))%nat.
Proof.
  induction fields as [| f fields IH] using rev_ind in b |- *; [done |].
  intros _. rewrite bind_chain_snoc.
  destruct (bind_chain None fields) as [r|] eqn:Hr; [| discriminate]. cbn.
  destruct (bind f r) as [b'|] eqn:Hb; [| discriminate]. cbn.
  intros [= <-]. apply (bind_queryset_path_bounds _ _ _ Hb).
  - destruct r as [p|]; [right | by left].
    destruct fields as [| f0 fields0]; [discriminate |].
    by apply (IH p).
  - destruct r as [p|]; [| done].
    destruct fields as [| f0 fields0]; [discriminate |].
    by apply (IH p).
Qed.

(** *** Lineage *)

Lemma lineage_of_bind self start b :
  bind self start = Return b →
  _lineage b = _lineage (or_blank start) ++ [b].
Proof.
  intros (_ & Hp & _)%bind_Return_inv.
  destruct b. cbn in *. by rewrite Hp.
Qed.

(** X9: the lineage of a chain bound from a missing previous starts at the
    blank root, has one entry more than there were hops, ends with the
    bound field itself, and its entry number [i] is the bound field after
    [i] hops: its [full_path] is the first [i] names. *)
Theorem lineage_of_bind_chain
    (fields : list OrmBaseField) (r : option OrmBoundField) :
  bind_chain None fields = Return r →
  length (_lineage (or_blank r)) = S (length fields) ∧
  head (_lineage (or_blank r)) = Some blank ∧
  last (_lineage (or_blank r)) = Some (or_blank r) ∧
  (∀ i x, _lineage (or_blank r) !! i = Some x →
          full_path x = take i (name <$> fields)).
Proof.
  revert r. induction fields as [| f fields IH] using rev_ind; intros r.
  - intros [= <-]. cbn. repeat split; try done.
    intros [| i] x; cbn; [by intros [= <-] | done].
  - rewrite bind_chain_snoc.
    destruct (bind_chain None fields) as [r0|] eqn:Hr0; [| discriminate]. cbn.
    destruct (bind f r0) as [b|] eqn:Hb; [| discriminate]. cbn.
    intros [= <-]. cbn.
    destruct (IH r0 eq_refl) as (Hlen & Hhead & _ & Hnth).
    rewrite (lineage_of_bind _ _ _ Hb).
    rewrite length_app, Hlen, length_app. cbn.
    split; [lia |]. split; [| split].
    + destruct (_lineage (or_blank r0)); [discriminate | done].
    + by rewrite last_snoc.
    + intros i x Hi. rewrite fmap_app. cbn.
      destruct (decide (i < length (_lineage (or_blank r0)))%nat) as [Hlt | Hge].
      * rewrite lookup_app_l in Hi by done.
        rewrite take_app_le by (rewrite length_fmap; lia).
        by apply Hnth.
      * rewrite lookup_app_r in Hi by lia.
        assert (i = S (length fields)) as ->.
        { apply lookup_lt_Some in Hi. cbn in Hi. lia. }
        rewrite Hlen, Nat.sub_diag in Hi. cbn in Hi. injection Hi as <-.
        rewrite take_ge by (rewrite length_app, length_fmap; cbn; lia).
        apply bind_chain_full_path_names_aux in Hr0.
        apply bind_paths in Hb as [-> _]. by rewrite Hr0.
Qed.

(** *** annotate *)

Lemma for_each_app {A S} (body : S → A → Outcome S) (l1 l2 : list A) (st : S) :
  for_each body (l1 ++ l2) st
  = st' ← for_each body l1 st; for_each body l2 st'.
Proof.
  revert st. induction l1 as [| x l1 IH]; intros st; cbn; [done |].
  destruct (body st x); cbn; [apply IH | done].
Qed.

Lemma _annotate_annotations link request qs qs' :
  _annotate link request qs = Return qs' →
  annotations qs'
  = annotations qs ++ (if annotated link then [queryset_path_str link] else []).
Proof.
  unfold _annotate. destruct (annotated link).
  - destruct (bound_admin link); [| discriminate]. cbn [mbind Outcome_bind].
    destruct (bound_name link); [| discriminate]. cbn [mbind Outcome_bind].
    destruct (admin_get_queryset _ _ _); [| discriminate].
    cbn [mbind Outcome_bind].
    destruct (previous link); [| discriminate]. cbn [mbind Outcome_bind].
    unfold django_call.
    do 3 (destruct (django_raises _); [discriminate |];
          cbn [mbind Outcome_bind]).
    destruct (bound_field_type link); [| discriminate]. cbn [mbind Outcome_bind].
    do 2 (destruct (django_raises _); [discriminate |];
          cbn [mbind Outcome_bind]).
    by intros [= <-].
  - intros [= <-]. by rewrite app_nil_r.
Qed.

Lemma for_each_annotate_annotations request (links : list OrmBoundField) :
  ∀ qs qs',
    for_each (fun qs link => _annotate link request qs) links qs = Return qs' →
    annotations qs'
    = annotations qs
      ++ (queryset_path_str <$> filter (fun x => annotated x = true) links).
Proof.
  induction links as [| link links IH]; intros qs qs'; cbn [for_each].
  - intros [= <-]. by rewrite app_nil_r.
  - destruct (_annotate link request qs) as [qs1|] eqn:H1; [| discriminate].
    cbn [mbind Outcome_bind]. intros H2. apply IH in H2 as ->.
    apply _annotate_annotations in H1 as ->.
    rewrite filter_cons. destruct (annotated link).
    + rewrite decide_True by done. by rewrite <- app_assoc.
    + rewrite decide_False by done. by rewrite app_nil_r.
Qed.

(** X10: [annotate] only adds annotations: the queryset it returns carries
    the ones it had, followed by one per annotated link of the lineage,
    oldest ancestor first, each under the link's [queryset_path_str]. *)
Theorem annotate_annotations
    (self : OrmBoundField) (request : PyValue) (qs qs' : QuerySet) :
  annotate self request qs = Return qs' →
  annotations qs'
  = annotations qs
    ++ (queryset_path_str <$> filter (fun x => annotated x = true) (_lineage self)).
Proof. apply for_each_annotate_annotations. Qed.

(** Which links of a chain are annotated ones. *)
Lemma lineage_annotated fields r :
  bind_chain None fields = Return r →
  annotated <$> _lineage (or_blank r)
  = false :: ((fun f => is_annotated_cls (cls f)) <$> fields).
Proof.
  revert r. induction fields as [| f fields IH] using rev_ind; intros r.
  - by intros [= <-].
  - rewrite bind_chain_snoc.
    destruct (bind_chain None fields) as [r0|] eqn:Hr0; [| discriminate]. cbn.
    destruct (bind f r0) as [b|] eqn:Hb; [| discriminate]. cbn.
    intros [= <-]. cbn. rewrite (lineage_of_bind _ _ _ Hb).
    rewrite !fmap_app, (IH r0 eq_refl). cbn.
    by apply bind_Return_inv in Hb as (_ & _ & -> & _).
Qed.

Lemma _annotate_plain link request qs :
  annotated link = false → _annotate link request qs = Return qs.
Proof. intros H. unfold _annotate. by rewrite H. Qed.

Lemma for_each_annotate_plain request (links : list OrmBoundField) qs :
  Forall (fun x => annotated x = false) links →
  for_each (fun qs link => _annotate link request qs) links qs = Return qs.
Proof.
  induction 1 as [| link links Hlink _ IH]; cbn [for_each]; [done |].
  by rewrite _annotate_plain.
Qed.

(** X11: a chain without annotated fields needs no annotation: [annotate]
    returns the queryset it was given, and [admin_get_queryset] is not
    called. *)
Theorem annotate_without_annotated_fields
    (fields : list OrmBaseField) (r : option OrmBoundField)
    (request : PyValue) (qs : QuerySet) :
  Forall (fun f => is_annotated_cls (cls f) = false) fields →
  bind_chain None fields = Return r →
  annotate (or_blank r) request qs = Return qs.
Proof.
  intros Hall Hr. apply for_each_annotate_plain.
  apply lineage_annotated in Hr.
  apply Forall_fmap with (f := annotated) (P := fun a => a = false).
  rewrite Hr. constructor; [done |]. by apply Forall_fmap.
Qed.

Lemma annotate_of_bind self start b request qs :
  bind self start = Return b →
  annotate b request qs
  = qs1 ← annotate (or_blank start) request qs; _annotate b request qs1.
Proof.
  intros Hb. unfold annotate.
  rewrite (lineage_of_bind _ _ _ Hb), for_each_app.
  destruct (for_each _ (_lineage (or_blank start)) qs) as [qs1|]; cbn; [| done].
  by destruct (_annotate b request qs1).
Qed.

(** X12: the annotation of a bound annotated field.  When
    [admin_get_queryset] returns and Django accepts the five calls
    ([.filter], [.values], the slice, [Subquery], [qs.annotate]), the
    result is the queryset annotated with the correlated subquery over
    the queryset of the other admin, under the link's own
    [queryset_path_str].  What [admin_get_queryset] raises is passed on,
    and so is what the first call that Django refuses raises. *)
Theorem annotate_of_annotated_bind
    (self : OrmBaseField) (ft adm : PyValue)
    (start : option OrmBoundField) (b : OrmBoundField)
    (request : PyValue) (qs qs1 : QuerySet) :
  cls self = ClsAnnotated ft adm →
  bind self start = Return b →
  annotate (or_blank start) request qs = Return qs1 →
  (∀ e, admin_get_queryset adm request [name self] = Raise e →
     annotate b request qs = Raise e) ∧
  (∀ inner, admin_get_queryset adm request [name self] = Return inner →
     let ref := s (queryset_path (or_blank start) ++ ["id"]) in
     let filtered := QsFilterPkOuterRef inner ref in
     let values := QsValues filtered (name self) in
     let first := QsFirst values in
     let calls := [CallFilter inner ref; CallValues filtered (name self);
                   CallSlice values; CallSubquery first ft;
                   CallAnnotate qs1 (queryset_path_str b) first ft] in
     (Forall (fun c => django_raises c = None) calls →
        annotate b request qs
        = Return (QsAnnotate qs1 (queryset_path_str b) first ft)) ∧
     (∀ before c after e,
        calls = before ++ c :: after →
        Forall (fun c => django_raises c = None) before →
        django_raises c = Some e →
        annotate b request qs = Raise e)).
Proof.
  intros Hc Hb Hqs1.
  rewrite (annotate_of_bind _ _ _ _ _ Hb), Hqs1. cbn [mbind Outcome_bind].
  unfold bind in Hb. rewrite Hc in Hb. injection Hb as <-.
  unfold _annotate, bound_admin, bound_name, bound_field_type,
    queryset_path_str. cbn.
  rewrite Hc. cbn. split.
  - by intros e ->.
  - intros inner ->. cbn. unfold django_call. split.
    + intros Hall.
      repeat (apply Forall_cons in Hall as [-> Hall]; cbn [mbind Outcome_bind]).
      done.
    + intros before c after e Hcalls Hbefore Hraise.
      do 5 (destruct before as [| c0 before];
            [ injection Hcalls as <- _; by rewrite Hraise
            | injection Hcalls as <- Hcalls;
              apply Forall_cons in Hbefore as [-> Hbefore];
              cbn [mbind Outcome_bind] ]).
      by destruct before.
Qed.

(** What [_annotate] does on a bound field: it returns with the
    annotation added, or raises what came from outside. *)
Lemma _annotate_of_bind_outcome self start b request qs :
  bind self start = Return b →
  match _annotate b request qs with
  | Return qs' =>
      annotations qs'
      = annotations qs ++ (if annotated b then [queryset_path_str b] else [])
  | Raise e =>
      (∃ adm fs, admin_get_queryset adm request fs = Raise e)
      ∨ (∃ c, django_raises c = Some e)
  end.
Proof.
  intros Hb.
  destruct (_annotate b request qs) as [qs'| e] eqn:H;
    [by apply (_annotate_annotations _ _ _ _ H) |].
  pose proof (bind_Return_inv _ _ _ Hb) as (Hf & Hp & Ha & _).
  revert H. unfold _annotate, bound_admin, bound_name, bound_field_type.
  rewrite Ha, Hf, Hp. destruct (cls self); cbn; try discriminate.
  destruct (admin_get_queryset _ _ _) eqn:Hq; cbn;
    [| intros [= <-]; left; eauto].
  unfold django_call.
  repeat match goal with
         | |- context [match django_raises ?c with _ => _ end] =>
             destruct (django_raises c) eqn:?; cbn;
             [intros [= <-]; right; eauto |]
         end.
  discriminate.
Qed.

(** X13: [annotate] on a chain bound from a missing previous.  When it
    returns, it has added as many annotations as the chain has annotated
    fields.  When it raises, the exception is one that
    [admin_get_queryset] or a call into Django raised: the look-ups of
    [admin], [name], [field_type] and [previous.queryset_path] never
    fail on such a chain.  So it returns whenever neither of the two
    raises. *)
Theorem annotate_chain_outcome
    (fields : list OrmBaseField) (r : option OrmBoundField)
    (request : PyValue) (qs : QuerySet) :
  bind_chain None fields = Return r →
  (∀ qs', annotate (or_blank r) request qs = Return qs' →
     length (annotations qs')
     = (length (annotations qs)
        + length (filter (fun f => is_annotated_cls (cls f) = true) fields))%nat) ∧
  (∀ e, annotate (or_blank r) request qs = Raise e →
     (∃ adm fs, admin_get_queryset adm request fs = Raise e)
     ∨ (∃ c, django_raises c = Some e)) ∧
  ((∀ adm fs, ∃ inner, admin_get_queryset adm request fs = Return inner) →
   (∀ c, django_raises c = None) →
   ∃ qs', annotate (or_blank r) request qs = Return qs').
Proof.
  intros Hr.
  assert (match annotate (or_blank r) request qs with
          | Return qs' =>
              length (annotations qs')
              = (length (annotations qs)
                 + length (filter (fun f => is_annotated_cls (cls f) = true)
                             fields))%nat
          | Raise e =>
              (∃ adm fs, admin_get_queryset adm request fs = Raise e)
              ∨ (∃ c, django_raises c = Some e)
          end) as H.
  { revert r Hr.
    induction fields as [| f fields IH] using rev_ind; intros r.
    - intros [= <-]. cbn. lia.
    - rewrite bind_chain_snoc.
      destruct (bind_chain None fields) as [r0|] eqn:Hr0; [| discriminate]. cbn.
      destruct (bind f r0) as [b|] eqn:Hb; [| discriminate]. cbn.
      intros [= <-]. cbn [or_blank].
      specialize (IH r0 eq_refl).
      rewrite (annotate_of_bind _ _ _ _ _ Hb).
      destruct (annotate (or_blank r0) request qs) as [qs1|];
        cbn [mbind Outcome_bind]; [| done].
      pose proof (_annotate_of_bind_outcome _ _ _ request qs1 Hb) as H.
      destruct (_annotate b request qs1) as [qs'|]; [| done].
      rewrite H, length_app, IH.
      rewrite filter_app, length_app, filter_cons, filter_nil.
      apply bind_Return_inv in Hb as (_ & _ & -> & _).
      destruct (is_annotated_cls (cls f)).
      + rewrite decide_True by done. cbn. lia.
      + rewrite decide_False by done. cbn. lia. }
  destruct (annotate (or_blank r) request qs) as [qs0 | e0].
  - split; [by intros qs' [= <-] |]. split; [done | eauto].
  - split; [done |]. split; [by intros e [= <-] |].
    intros Hadm Hdj. destruct H as [(adm & fs & H) | (c & H)].
    + destruct (Hadm adm fs) as [inner Hinner]. congruence.
    + rewrite Hdj in H. discriminate.
Qed.

(** *** group_by *)

(** X14: a bound field is a grouping key exactly when its descriptor is
    pivotable: never for a foreign key or an aggregate, always for a
    concrete, raw, calculated, annotated or file field.  The blank root
    has no descriptor to ask: there the AttributeError names [group_by],
    the attribute [__getattr__] was asked for after the property failed. *)
Theorem group_by_by_constructor
    (f : OrmBaseField) (start : option OrmBoundField) (b : OrmBoundField) :
  bind f start = Return b →
  group_by b = Return (can_pivot f) ∧
  group_by blank
  = Raise (mkExc AttributeError
             "'NoneType' object has no attribute 'group_by'") ∧
  (∀ mn n pn rel,
     OrmFkField mn n pn rel = Return f → group_by b = Return false) ∧
  (∀ bt n func t,
     OrmAggregateField bt n func t = Return f → group_by b = Return false) ∧
  (∀ c mn n pn t rel ch,
     OrmConcreteField_init c mn n pn t rel ch = Return f →
     group_by b = Return true) ∧
  (∀ mn n pn func,
     OrmCalculatedField mn n pn func = Return f → group_by b = Return true) ∧
  (∀ mn n pn t ft adm ch,
     OrmAnnotatedField mn n pn t ft adm ch = Return f →
     group_by b = Return true).
Proof.
  intros (Hf & _)%bind_Return_inv.
  assert (group_by b = Return (can_pivot f)) as Hg.
  { unfold group_by. by rewrite Hf. }
  assert (∀ c mn n pn t conc rel piv ch,
            OrmBaseField_init c mn n pn t conc rel piv ch = Return f →
            can_pivot f = piv) as Hinit.
  { intros c mn n pn t conc rel piv ch. unfold OrmBaseField_init.
    destruct (__post_init__ _); [| discriminate]. cbn. by intros [= <-]. }
  rewrite Hg. repeat split.
  - intros mn n pn rel H. by rewrite (Hinit _ _ _ _ _ _ _ _ _ H).
  - intros bt n func t H. by rewrite (Hinit _ _ _ _ _ _ _ _ _ H).
  - intros c mn n pn t rel ch H. by rewrite (Hinit _ _ _ _ _ _ _ _ _ H).
  - intros mn n pn func H. by rewrite (Hinit _ _ _ _ _ _ _ _ _ H).
  - intros mn n pn t ft adm ch. unfold OrmAnnotatedField.
    destruct t; [| discriminate]. cbn. by intros [= <-].
Qed.

(** *** Formatters *)

(** X15: the formatter of a calculated field does not call the function for
    the row [None]; it hands what the function returns to the formatter
    of the type, whose own failure it does not catch; and it lets through
    what the function raises that is no instance of [Exception]. *)
Theorem OrmCalculatedField_formatter_paths
    (self : OrmBaseField) (func : Callable) (t : BaseType)
    (base_formatter : PyValue -> Outcome PyValue) :
  cls self = ClsCalculated func →
  type_ self = Some t →
  type_get_formatter t (choices self) = Return base_formatter →
  ∃ format, get_formatter self = Return format ∧
    format PyNone = Return PyNone ∧
    (∀ obj value, obj ≠ PyNone → call func obj = Return value →
                  format obj = base_formatter value) ∧
    (∀ obj e, obj ≠ PyNone → call func obj = Raise e →
              is_Exception (exc_class e) = false → format obj = Raise e).
Proof.
  intros Hc Ht Hbase.
  unfold get_formatter, OrmCalculatedField_get_formatter,
    OrmBaseField_get_formatter.
  rewrite Hc, Ht, Hbase. cbn. eexists. split; [reflexivity |].
  cbn. split; [done |]. split.
  - intros obj value Hobj ->. by destruct obj.
  - intros obj e Hobj -> ->. by destruct obj.
Qed.

(** X16: the formatter of a file field never raises an instance of
    [Exception]: it returns a value, or lets through something that is
    none.  When the storage gives a URL it returns the link that
    [format_html] builds from the URL and the value, and a failure of
    [format_html] is turned into its string form too. *)
Theorem OrmFileField_formatter_never_raises
    (self : OrmBaseField) (storage_url : PyValue -> Outcome PyValue) :
  cls self = ClsFile storage_url →
  ∃ format, get_formatter self = Return format ∧
    (∀ value e, format value = Raise e → is_Exception (exc_class e) = false) ∧
    (∀ value url, truthy value = true → storage_url value = Return url →
       format value
       = try_except_Exception (format_html link_template [url; value])
           (fun e => Return (PyStr (exc_str e)))).
Proof.
  intros Hc. unfold get_formatter, OrmFileField_get_formatter. rewrite Hc.
  eexists. split; [reflexivity |]. cbn. split.
  - intros value e. destruct (truthy value); cbn; [| done].
    unfold try_except_Exception.
    destruct (storage_url value) as [url | e1]; cbn.
    + destruct (format_html _ _) as [h | e2]; [done |].
      destruct (is_Exception (exc_class e2)) eqn:He2; [done |].
      by intros [= <-].
    + destruct (is_Exception (exc_class e1)) eqn:He1; [done |].
      by intros [= <-].
  - by intros value url -> ->.
Qed.

(** A foreign-key descriptor has no formatter: it has no type to ask. *)
Lemma OrmFkField_no_formatter (mn n pn : string) (rel : option string)
    (f : OrmBaseField) :
  OrmFkField mn n pn rel = Return f →
  get_formatter f = none_has_no_attribute "get_formatter".
Proof.
  unfold OrmFkField, OrmBaseField_init.
  destruct (__post_init__ _); [| discriminate]. cbn. by intros [= <-].
Qed.

(** *** default_filters *)

Lemma mapM_Return_lookup {A B} (f : A → Outcome B) (l : list A) (r : list B) :
  mapM f l = Return r →
  length r = length l ∧
  ∀ i y, r !! i = Some y → ∃ x, l !! i = Some x ∧ f x = Return y.
Proof.
  revert r. induction l as [| x l IH]; intros r; cbn.
  - intros [= <-]. split; [done |]. by intros [|].
  - destruct (f x) as [y|] eqn:Hy; [| discriminate]. cbn.
    destruct (mapM f l) as [ys|]; [| discriminate]. cbn.
    intros [= <-]. destruct (IH ys eq_refl) as [Hlen Hnth]. cbn.
    split; [by rewrite Hlen |].
    intros [| i] y'; cbn; [intros [= <-]; eauto | apply Hnth].
Qed.

(** When the option is no list, [default_filters] raises an
    AssertionError. *)
Lemma default_filters_not_a_list (self : OrmModel) (v : PyValue) :
  _get_option (admin self) "default_filters" = Return (OptOther v) →
  default_filters self = Raise (mkExc AssertionError "").
Proof. intros H. unfold default_filters. by rewrite H. Qed.

(** X17: what [default_filters] returns has one triple per item of the
    option, with the item's field and lookup; every value in it is a
    string: the item's own value when that is a string, and its JSON
    encoding otherwise. *)
Theorem default_filters_values_are_strings
    (self : OrmModel) (r : list (PyValue * PyValue * PyValue)) :
  default_filters self = Return r →
  ∃ items,
    _get_option (admin self) "default_filters" = Return (OptList items) ∧
    length r = length items ∧
    ∀ i f l v, r !! i = Some (f, l, v) →
      (∃ str, v = PyStr str) ∧
      ∃ v0, items !! i = Some [f; l; v0] ∧
            match v0 with
            | PyStr _ => v = v0
            | _ => ∃ json, json_dumps v0 = Return json ∧ v = PyStr json
            end.
Proof.
  unfold default_filters.
  destruct (_get_option _ _) as [[items | v] |]; cbn; try discriminate.
  intros [Hlen Hnth]%mapM_Return_lookup.
  exists items. split; [done |]. split; [done |].
  intros i f l v Hi. destruct (Hnth _ _ Hi) as (item & Hitem & Hf).
  destruct item as [| f0 [| l0 [| v0 [| ? ?]]]]; try discriminate.
  cbn in Hf. rewrite Hitem.
  destruct v0; cbn in Hf;
    try (destruct (json_dumps _) as [json|] eqn:Hj; [| discriminate];
         cbn in Hf);
    injection Hf as <- <- <-; (split; [by eauto |]);
    eexists; (split; [reflexivity |]); cbn; eauto.
Qed.

(** X18: filters whose values are strings already come back unchanged, and
    [json.dumps] is not needed. *)
Theorem default_filters_strings_unchanged
    (self : OrmModel) (filters : list (PyValue * PyValue * string)) :
  _get_option (admin self) "default_filters"
  = Return (OptList ((fun '(f, l, v) => [f; l; PyStr v]) <$> filters)) →
  default_filters self
  = Return ((fun '(f, l, v) => (f, l, PyStr v)) <$> filters).
Proof.
  intros H. unfold default_filters. rewrite H. clear H.
  cbn [mbind Outcome_bind].
  induction filters as [| [[f l] v] filters IH]; [done |].
  cbn [fmap list_fmap mapM unpack3 mbind Outcome_bind].
  fold (fmap (M := list) (fun '(f, l, v) => [f; l; PyStr v]) filters).
  rewrite IH. reflexivity.
Qed.

(** X19: an item that is no triple makes [default_filters] raise a
    ValueError, when the items before it are fine. *)
Theorem default_filters_bad_item
    (self : OrmModel) (filters : list (PyValue * PyValue * string))
    (item : list PyValue) (rest : list (list PyValue)) :
  length item ≠ 3 →
  _get_option (admin self) "default_filters"
  = Return (OptList (((fun '(f, l, v) => [f; l; PyStr v]) <$> filters)
                     ++ item :: rest)) →
  ∃ e, default_filters self = Raise e ∧
       exc_class e = OtherException "ValueError".
Proof.
  intros Hlen H. unfold default_filters. rewrite H. clear H.
  cbn [mbind Outcome_bind].
  induction filters as [| [[f l] v] filters IH].
  - destruct item as [| ? [| ? [| ? [| ? ?]]]]; cbn; eauto. done.
  - cbn [fmap list_fmap app mapM unpack3 mbind Outcome_bind].
    fold (fmap (M := list) (fun '(f, l, v) => [f; l; PyStr v]) filters).
    destruct IH as (e & -> & He). cbn. eauto.
Qed.

(** *** Display names of aggregates *)

Lemma replace_char_length old new str :
  String.length (replace_char old new str) = String.length str.
Proof. induction str as [| c str IH]; cbn; [done | by rewrite IH]. Qed.

Lemma replace_char_removes old new str :
  old ≠ new → old ∉ list_ascii_of_string (replace_char old new str).
Proof.
  intros Hne. induction str as [| c str IH]; cbn.
  - apply not_elem_of_nil.
  - apply not_elem_of_cons. split; [| done].
    destruct (Ascii.eqb c old) eqn:Hc; [done |].
    apply Ascii.eqb_neq in Hc. congruence.
Qed.

Lemma replace_char_absent old new str :
  old ∉ list_ascii_of_string str → replace_char old new str = str.
Proof.
  induction str as [| c str IH]; cbn; [done |].
  intros [Hc Hstr]%not_elem_of_cons.
  rewrite IH by done. destruct (Ascii.eqb c old) eqn:Heq; [| done].
  apply Ascii.eqb_eq in Heq. congruence.
Qed.

Lemma replace_char_get old new str i :
  String.get i (replace_char old new str)
  = (fun c => if Ascii.eqb c old then new else c) <$> String.get i str.
Proof.
  revert i. induction str as [| c str IH]; intros i; cbn; [done |].
  destruct i as [| i]; [done | apply IH].
Qed.

(** X20: the display name of an aggregate is its name with every underscore
    turned into a space: position by position, an underscore of the name
    is a space in the display name and any other character is kept, and
    the two are equally long.  So the display name has no underscore, and
    it is the name itself when that has none. *)
Theorem OrmAggregateField_pretty_name
    (base_type : BaseType) (n : string) (agg_func : string -> Outcome Func)
    (t : option BaseType) (f : OrmBaseField) :
  OrmAggregateField base_type n agg_func t = Return f →
  name f = n ∧
  String.length (pretty_name f) = String.length n ∧
  (∀ i, String.get i n = Some "_"%char →
        String.get i (pretty_name f) = Some " "%char) ∧
  (∀ i c, String.get i n = Some c → c ≠ "_"%char →
          String.get i (pretty_name f) = Some c) ∧
  ("_"%char ∉ list_ascii_of_string (pretty_name f)) ∧
  (("_"%char ∉ list_ascii_of_string n) → pretty_name f = n).
Proof.
  unfold OrmAggregateField, OrmBaseField_init.
  destruct (__post_init__ _); [| discriminate]. cbn. intros [= <-]. cbn.
  split; [done |]. split; [apply replace_char_length |].
  split; [| split; [| split]].
  - intros i Hi. by rewrite replace_char_get, Hi.
  - intros i c Hi Hc. rewrite replace_char_get, Hi. cbn.
    destruct (Ascii.eqb c "_") eqn:Heq; [| done].
    by apply Ascii.eqb_eq in Heq.
  - by apply replace_char_removes.
  - apply replace_char_absent.
Qed.

(** ** More properties of orm_aggregates.py *)

Lemma setitem2_entries P t k v (d d' : gmap BaseType (gmap string AggEntry)) :
  entries_satisfy P d → P t k v →
  setitem2 t k v d = Return d' →
  entries_satisfy P d'.
Proof.
  intros Hd Hv. unfold setitem2.
  destruct (d !! t) as [inner0|] eqn:Ht; [| discriminate]. intros [= <-].
  intros t' inner k' v' Hl Hk. destruct (decide (t = t')) as [<- | Hne].
  - rewrite lookup_alter_eq, Ht in Hl. cbn in Hl. injection Hl as <-.
    destruct (decide (k = k')) as [<- | Hnk].
    + rewrite lookup_insert_eq in Hk. by injection Hk as <-.
    + rewrite lookup_insert_ne in Hk by done. by apply (Hd t inner0).
  - rewrite lookup_alter_ne in Hl by done. by apply (Hd t' inner).
Qed.

Lemma for_each_entries {A} P (body : _ → A → _) (xs : list A) :
  (∀ (d d' : gmap BaseType (gmap string AggEntry)) x,
     x ∈ xs → entries_satisfy P d → body d x = Return d' →
     entries_satisfy P d') →
  ∀ d d', entries_satisfy P d → for_each body xs d = Return d' →
          entries_satisfy P d'.
Proof.
  induction xs as [| x xs IH]; intros Hbody d d' Hd; cbn.
  - by intros [= <-].
  - destruct (body d x) as [d1|] eqn:H1; [| discriminate]. cbn.
    apply IH.
    + intros d2 d3 y Hy. apply Hbody. by right.
    + apply (Hbody d d1 x); [by left | done | done].
Qed.

Lemma initial_registry_entries P (l : list BaseType) :
  ∀ d : gmap BaseType (gmap string AggEntry),
    entries_satisfy P d →
    entries_satisfy P (foldl (fun d type_ => <[type_ := ∅]> d) d l).
Proof.
  induction l as [| x l IH]; intros d Hd; cbn; [done |].
  apply IH. intros t inner k v Hl Hk.
  destruct (decide (x = t)) as [<- | Hne].
  - rewrite lookup_insert_eq in Hl. injection Hl as <-.
    by rewrite lookup_empty in Hk.
  - rewrite lookup_insert_ne in Hl by done. by apply (Hd t inner).
Qed.

(** The registry holds nothing but what the module body registers. *)
Lemma TYPE_AGGREGATES_registered d :
  TYPE_AGGREGATES = Return d → entries_satisfy registered d.
Proof.
  unfold TYPE_AGGREGATES.
  pose proof (initial_registry_entries registered TYPES_values ∅) as H0.
  set (d0 := foldl _ ∅ TYPES_values) in *.
  assert (entries_satisfy registered d0) as Hd0.
  { apply H0. intros t inner k v Hl. by rewrite lookup_empty in Hl. }
  clear H0.
  destruct (for_each _ TYPES_values d0) as [d1|] eqn:H1; [| discriminate].
  assert (entries_satisfy registered d1) as Hd1.
  { revert H1. apply for_each_entries; [| done].
    intros da db x _ Hda. case_bool_decide as Hx; [| by intros [= <-]].
    apply setitem2_entries; [done | by constructor]. }
  cbn [mbind Outcome_bind for_each].
  repeat match goal with
  | |- context [setitem2 ?ty ?k ?v ?d] =>
      let d' := fresh "d" in
      let H := fresh "Hset" in
      let Hd := fresh "Hd" in
      destruct (setitem2 ty k v d) as [d'|] eqn:H; [| discriminate];
      assert (entries_satisfy registered d') as Hd
        by (revert H; apply setitem2_entries;
            [done | constructor; clear; set_solver]);
      cbn [mbind Outcome_bind for_each]
  end.
  destruct array_aggregation_enabled eqn:Hpg; [| by intros [= <-]].
  apply for_each_entries; [| done].
  intros da db a Ha Hda. destruct (raw_type a) eqn:Hraw; [by intros [= <-] |].
  apply setitem2_entries; [done | by constructor].
Qed.

Lemma aggregate_items_eq type_ (l : list (string * AggEntry)) :
  mapM (fun '(name, (func, res_type)) =>
          f ← OrmAggregateField type_ name func (Some res_type);
          Return (name, f)) l
  = Return ((fun kv => (kv.1, aggregate_descriptor type_ kv.1 kv.2)) <$> l).
Proof.
  induction l as [| [key [func res_type]] l IH]; [done |].
  cbn [mapM]. rewrite IH. reflexivity.
Qed.

(** What [get_aggregates_for_type] returns, entry by entry. *)
Lemma get_aggregates_for_type_lookup type_ m :
  get_aggregates_for_type type_ = Return m →
  ∃ d inner,
    TYPE_AGGREGATES = Return d ∧ d !! type_ = Some inner ∧
    dom m = dom inner ∧
    ∀ k f, m !! k = Some f ↔
           ∃ entry, inner !! k = Some entry ∧
                    f = aggregate_descriptor type_ k entry.
Proof.
  unfold get_aggregates_for_type.
  destruct TYPE_AGGREGATES as [d|]; [| discriminate]. cbn [mbind Outcome_bind].
  destruct (d !! type_) as [inner|] eqn:Hinner; [| discriminate].
  cbn [mbind Outcome_bind]. rewrite aggregate_items_eq.
  cbn [mbind Outcome_bind]. intros [= <-].
  exists d, inner. split; [done |]. split; [done |].
  set (g := fun kv : string * AggEntry =>
              (kv.1, aggregate_descriptor type_ kv.1 kv.2)).
  assert ((g <$> map_to_list inner).*1 = (map_to_list inner).*1) as Hfst.
  { rewrite <- list_fmap_compose. by apply list_fmap_ext. }
  split.
  - rewrite dom_list_to_map_L, Hfst, <- dom_list_to_map_L.
    by rewrite list_to_map_to_list.
  - intros k f. rewrite <- elem_of_list_to_map
      by (rewrite Hfst; apply NoDup_fst_map_to_list).
    rewrite list_elem_of_fmap. split.
    + intros ([k' entry] & [= -> ->] & Hin%elem_of_map_to_list). eauto.
    + intros (entry & Hk & ->). exists (k, entry).
      split; [done | by apply elem_of_map_to_list].
Qed.

(** X21: every descriptor that [get_aggregates_for_type] returns is an
    aggregate of the type asked for, filed under its own name; it is
    concrete, not pivotable, has a result type and no related name, and
    its model name is the name of the type. *)
Theorem get_aggregates_for_type_descriptors
    (base : BaseType) (m : gmap string OrmBaseField)
    (k : string) (f : OrmBaseField) :
  get_aggregates_for_type base = Return m →
  m !! k = Some f →
  name f = k ∧
  (∃ func, cls f = ClsAggregate base func) ∧
  model_name f = type_name base ∧
  pretty_name f = replace_char "_" " " k ∧
  is_Some (type_ f) ∧
  concrete f = true ∧ can_pivot f = false ∧
  rel_name f = None ∧ choices f = [].
Proof.
  intros (d & inner & _ & _ & _ & Hm)%get_aggregates_for_type_lookup Hk.
  apply Hm in Hk as (entry & _ & ->). cbn. repeat split; eauto.
Qed.

Lemma get_aggregates_for_type_registered base m k f :
  get_aggregates_for_type base = Return m →
  m !! k = Some f →
  ∃ entry, registered base k entry ∧ f = aggregate_descriptor base k entry.
Proof.
  intros (d & inner & Hd & Hinner & _ & Hm)%get_aggregates_for_type_lookup Hk.
  apply Hm in Hk as (entry & Hentry & ->). exists entry. split; [| done].
  by apply (TYPE_AGGREGATES_registered d Hd base inner).
Qed.

(** X22: the result type of an aggregate: [count], [std_dev] and [variance]
    give Number; [max] and [min] give the type they are applied to;
    [average] and [sum] give Duration for Duration and Number for Number
    and Boolean; [all] gives an array type whose elements have the type
    it is applied to. *)
Theorem aggregate_result_types
    (base : BaseType) (m : gmap string OrmBaseField)
    (k : string) (f : OrmBaseField) :
  get_aggregates_for_type base = Return m →
  m !! k = Some f →
  (k = "count" ∨ k = "std_dev" ∨ k = "variance" →
   type_ f = Some NumberType) ∧
  (k = "max" ∨ k = "min" → type_ f = Some base) ∧
  (k = "average" ∨ k = "sum" →
   type_ f = Some (if decide (base = DurationType)
                             then DurationType else NumberType)) ∧
  (k = "all" →
   ∃ array_type, array_type ∈ ArrayTypeMixin_subclasses ∧
                 raw_type array_type = None ∧
                 element_type array_type = base ∧
                 type_ f = Some (array_cls array_type)).
Proof.
  intros Hm Hk.
  destruct (get_aggregates_for_type_registered _ _ _ _ Hm Hk)
    as (entry & Hreg & ->).
  cbn. destruct Hreg; cbn; repeat split;
    try (intros [? | [? | ?]]; done);
    try (intros [? | ?]; done);
    try (intros ?; done).
  intros _. eauto.
Qed.

(** The functions of the registry build their clause for every path,
    but for [all] when [ArrayAgg] could not be imported. *)
Lemma registered_function_Return base k entry x :
  registered base k entry →
  k ≠ "all" ∨ ArrayAgg_imported = true →
  ∃ clause, entry.1 x = Return clause.
Proof.
  intros Hreg Hall. destruct Hreg; cbn; eauto.
  destruct Hall as [? | Himp]; [done |].
  unfold array_agg_all. rewrite Himp. eauto.
Qed.

(** X23: an aggregate that [get_aggregates_for_type] returns for a type binds
    to every bound field whose descriptor has that type: the result is
    having and not filterable, its paths end with the name of the
    aggregate and with its display name, its [queryset_path] is the one
    annotation identifier, and it carries a clause.  The one exception is
    [all] when [ArrayAgg] could not be imported. *)
Theorem registry_aggregate_binds
    (base : BaseType) (m : gmap string OrmBaseField) (k : string)
    (f : OrmBaseField) (p : OrmBoundField) (fp : OrmBaseField) :
  get_aggregates_for_type base = Return m →
  m !! k = Some f →
  field p = Some fp →
  type_ fp = Some base →
  k ≠ "all" ∨ ArrayAgg_imported = true →
  ∃ b, bind f (Some p) = Return b ∧
       having b = true ∧ filter_ b = false ∧
       full_path b = full_path p ++ [k] ∧
       pretty_path b = pretty_path p ++ [replace_char "_" " " k] ∧
       queryset_path b = [annotation_path (full_path p ++ [k])] ∧
       is_Some (aggregate_clause b).
Proof.
  intros Hm Hk Hfp Ht Hall.
  destruct (get_aggregates_for_type_registered _ _ _ _ Hm Hk)
    as (entry & Hreg & ->).
  destruct (registered_function_Return _ _ _ (queryset_path_str p) Hreg Hall)
    as [clause Hclause].
  unfold bind, aggregate_descriptor. cbn.
  unfold bound_type_. rewrite Hfp, Ht. cbn.
  rewrite bool_decide_eq_true_2 by done. cbn. rewrite Hclause. cbn.
  eexists. split; [reflexivity |]. cbn. repeat split; eauto.
Qed.

(** X24: the clauses: [count] counts the distinct values at the path of the
    previous bound field; the average and sum of a Duration cast it to a
    duration, those of a Boolean cast it to an integer, those of a Number
    take it as it is. *)
Theorem registry_aggregate_clauses
    (base : BaseType) (m : gmap string OrmBaseField) (k : string)
    (f : OrmBaseField) (p : OrmBoundField) (b : OrmBoundField) :
  get_aggregates_for_type base = Return m →
  m !! k = Some f →
  bind f (Some p) = Return b →
  let x := Ref (queryset_path_str p) in
  (k = "count" → aggregate_clause b = Some (Count x true)) ∧
  (k = "max" → aggregate_clause b = Some (Max x)) ∧
  (k = "min" → aggregate_clause b = Some (Min x)) ∧
  (k = "sum" →
   aggregate_clause b
   = Some (Sum (match base with
                | DurationType => CastDuration x
                | BooleanType => Cast x IntegerField
                | _ => x
                end))) ∧
  (k = "average" →
   aggregate_clause b
   = Some (Avg (match base with
                | DurationType => CastDuration x
                | BooleanType => Cast x IntegerField
                | _ => x
                end))) ∧
  (k = "all" → aggregate_clause b = Some (ArrayAgg x ValueEmptyList true x)).
Proof.
  intros Hm Hk Hb x.
  destruct (get_aggregates_for_type_registered _ _ _ _ Hm Hk)
    as (entry & Hreg & ->).
  unfold bind, aggregate_descriptor in Hb. cbn in Hb.
  destruct (bound_type_ p) as [t|]; [| discriminate]. cbn in Hb.
  destruct (bool_decide (t = Some base)); [| discriminate]. cbn in Hb.
  destruct (entry.1 (queryset_path_str p)) as [clause|] eqn:Hclause;
    [| discriminate].
  cbn in Hb. injection Hb as <-. cbn.
  destruct Hreg; cbn in Hclause; repeat split; intros ?; try done;
    try (by injection Hclause as <-).
  unfold array_agg_all in Hclause.
  destruct ArrayAgg_imported; [| discriminate]. by injection Hclause as <-.
Qed.

(** X25: when [ArrayAgg] could not be imported, the registry still offers
    [all], and binding it raises a TypeError. *)
Theorem registry_all_without_ArrayAgg
    (base : BaseType) (m : gmap string OrmBaseField)
    (f : OrmBaseField) (p : OrmBoundField) (fp : OrmBaseField) :
  ArrayAgg_imported = false →
  get_aggregates_for_type base = Return m →
  m !! "all" = Some f →
  field p = Some fp →
  type_ fp = Some base →
  bind f (Some p)
  = Raise (mkExc TypeError "'NoneType' object is not callable").
Proof.
  intros Himp Hm Hk Hfp Ht.
  destruct (get_aggregates_for_type_registered _ _ _ _ Hm Hk)
    as (entry & Hreg & ->).
  unfold bind, aggregate_descriptor. cbn.
  unfold bound_type_. rewrite Hfp, Ht. cbn.
  rewrite bool_decide_eq_true_2 by done. cbn.
  inversion Hreg; subst; cbn. unfold array_agg_all. by rewrite Himp.
Qed.

(** *** The engine test *)

Lemma prefix_iff (sub str : string) :
  String.prefix sub str = true ↔ ∃ rest, str = sub +:+ rest.
Proof.
  revert str. induction sub as [| c sub IH]; intros str; cbn.
  - destruct str; split; eauto.
  - destruct str as [| c' str]; cbn.
    + split; [done | by intros [? ?]].
    + destruct (ascii_dec c c') as [<- | Hne].
      * destruct (IH str) as [H1 H2]. split.
        -- intros [rest ->]%H1. eauto.
        -- intros [rest [= ->]]. apply H2. eauto.
      * split; [done |]. intros [rest [= ? _]]. congruence.
Qed.

Lemma str_contains_iff (sub str : string) :
  str_contains sub str = true ↔ ∃ before after, str = before +:+ sub +:+ after.
Proof.
  induction str as [| c str IH]; cbn [str_contains].
  - rewrite orb_false_r. split.
    + intros [rest H]%prefix_iff. exists "", rest. done.
    + intros ([| ? ?] & after & H); [| discriminate].
      apply prefix_iff. eauto.
  - rewrite orb_true_iff. split.
    + intros [[rest H]%prefix_iff | (before & after & ->)%IH].
      * exists "", rest. done.
      * exists (String c before), after. done.
    + intros ([| c' before] & after & H); cbn in H.
      * left. apply prefix_iff. eauto.
      * right. injection H as -> ->. apply IH. eauto.
Qed.

(** X26: array aggregation is on exactly when the engine setting has
    [postgresql] somewhere in it. *)
Theorem array_aggregation_enabled_iff :
  array_aggregation_enabled = true ↔
  ∃ before after, ENGINE = before +:+ "postgresql" +:+ after.
Proof. apply str_contains_iff. Qed.

(** *** When the module body fails *)

Lemma setitem2_Return_inv t k v (d d' : gmap BaseType (gmap string AggEntry)) :
  setitem2 t k v d = Return d' → t ∈ dom d ∧ dom d' = dom d.
Proof.
  unfold setitem2. destruct (d !! t) eqn:Ht; [| discriminate].
  intros [= <-]. split; [apply elem_of_dom; eauto | apply dom_alter_L].
Qed.

Lemma setitem2_Raise_inv t k v (d : gmap BaseType (gmap string AggEntry)) e :
  setitem2 t k v d = Raise e → exc_class e = KeyError.
Proof.
  unfold setitem2. destruct (d !! t); [discriminate |]. by intros [= <-].
Qed.

Lemma for_each_dom {A} (body : _ → A → _) (xs : list A) :
  (∀ (d d' : gmap BaseType (gmap string AggEntry)) x,
     body d x = Return d' → dom d' = dom d) →
  ∀ d d', for_each body xs d = Return d' → dom d' = dom d.
Proof.
  intros Hbody. induction xs as [| x xs IH]; intros d d'; cbn.
  - by intros [= <-].
  - destruct (body d x) as [d1|] eqn:H1; [| discriminate]. cbn.
    intros H2%IH. rewrite H2. by apply (Hbody d d1 x).
Qed.

Lemma for_each_KeyError {A} (body : _ → A → _) (xs : list A) :
  (∀ (d : gmap BaseType (gmap string AggEntry)) x e,
     body d x = Raise e → exc_class e = KeyError) →
  ∀ d e, for_each body xs d = Raise e → exc_class e = KeyError.
Proof.
  intros Hbody. induction xs as [| x xs IH]; intros d e; cbn; [done |].
  destruct (body d x) as [d1|] eqn:H1; cbn.
  - apply IH.
  - intros [= <-]. by apply (Hbody d x).
Qed.

(** The module body can only fail with a KeyError. *)
Lemma TYPE_AGGREGATES_Raise e :
  TYPE_AGGREGATES = Raise e → exc_class e = KeyError.
Proof.
  unfold TYPE_AGGREGATES.
  destruct (for_each _ TYPES_values _) as [d1|] eqn:H1; cbn.
  2: { intros [= <-]. revert H1. apply for_each_KeyError.
       intros d x e1. case_bool_decide; [apply setitem2_Raise_inv | done]. }
  clear H1.
  repeat match goal with
  | |- context [setitem2 ?ty ?k ?v ?d] =>
      let d' := fresh "d" in
      let H := fresh "Hset" in
      destruct (setitem2 ty k v d) as [d'|] eqn:H;
      [ clear H
      | cbn [mbind Outcome_bind]; intros [= <-];
        by apply setitem2_Raise_inv in H ];
      cbn [mbind Outcome_bind for_each]
  end.
  destruct array_aggregation_enabled; [| done].
  apply for_each_KeyError. intros da a ea.
  destruct (raw_type a); [done | apply setitem2_Raise_inv].
Qed.

(** When the module body runs through, the named types are values of
    [TYPES]. *)
Lemma TYPE_AGGREGATES_Return_named d :
  TYPE_AGGREGATES = Return d →
  dom d = list_to_set TYPES_values ∧
  ∀ t, t ∈ [DateTimeType; DateType; DurationType; NumberType; BooleanType] →
       t ∈ TYPES_values.
Proof.
  unfold TYPE_AGGREGATES.
  destruct (initial_registry_spec TYPES_values ∅) as [Hd0 _].
  { intros t. unfold keys_at. by rewrite lookup_empty. }
  rewrite dom_empty_L, (right_id_L ∅ (∪)) in Hd0.
  set (d0 := foldl _ ∅ TYPES_values) in *.
  destruct (for_each _ TYPES_values d0) as [d1|] eqn:H1; [| discriminate].
  assert (dom d1 = list_to_set TYPES_values) as Hcur.
  { rewrite <- Hd0. revert H1. apply for_each_dom.
    intros da db x. case_bool_decide; [| by intros [= <-]].
    by intros [_ ?]%setitem2_Return_inv. }
  clear H1. cbn [mbind Outcome_bind for_each].
  repeat match goal with
  | |- context [setitem2 ?ty ?k ?v ?d] =>
      let d' := fresh "d" in
      let H := fresh "Hset" in
      let Hin := fresh "Hin" in
      let Hd := fresh "Hd" in
      destruct (setitem2 ty k v d) as [d'|] eqn:H; [| discriminate];
      apply setitem2_Return_inv in H as [Hin Hd];
      rewrite Hcur in Hin, Hd;
      apply elem_of_list_to_set in Hin;
      clear Hcur; rename Hd into Hcur;
      cbn [mbind Outcome_bind for_each]
  end.
  intros Hd. split.
  - destruct array_aggregation_enabled; [| by injection Hd as <-].
    rewrite <- Hcur. revert Hd. apply for_each_dom.
    intros da db x. destruct (raw_type x); [by intros [= <-] |].
    by intros [_ ?]%setitem2_Return_inv.
  - intros t Ht.
    repeat (apply elem_of_cons in Ht as [-> | Ht]); try done.
    by apply elem_of_nil in Ht.
Qed.

(** X27: when one of DateTime, Date, Duration, Number and Boolean is no value
    of [TYPES], the module body raises a KeyError, and so does every call
    of [get_aggregates_for_type]. *)
Theorem TYPE_AGGREGATES_needs_named_types (t : BaseType) :
  t ∈ [DateTimeType; DateType; DurationType; NumberType; BooleanType] →
  t ∉ TYPES_values →
  ∃ e, TYPE_AGGREGATES = Raise e ∧ exc_class e = KeyError ∧
       ∀ t', get_aggregates_for_type t' = Raise e.
Proof.
  intros Ht Hnot. destruct TYPE_AGGREGATES as [d | e] eqn:HTA.
  - exfalso. apply Hnot. by apply (TYPE_AGGREGATES_Return_named d HTA).
  - exists e. split; [done |]. split; [by apply TYPE_AGGREGATES_Raise |].
    intros t'. unfold get_aggregates_for_type. by rewrite HTA.
Qed.

(** X28: a type that is no value of [TYPES] has no aggregates: when the
    module body ran through, [get_aggregates_for_type] raises a KeyError
    for it. *)
Theorem get_aggregates_for_type_unregistered
    (t : BaseType) (d : gmap BaseType (gmap string AggEntry)) :
  TYPE_AGGREGATES = Return d →
  t ∉ TYPES_values →
  get_aggregates_for_type t = Raise (mkExc KeyError (type_repr t)).
Proof.
  intros HTA Hnot. unfold get_aggregates_for_type. rewrite HTA.
  cbn [mbind Outcome_bind].
  destruct (TYPE_AGGREGATES_Return_named d HTA) as [Hdom _].
  assert (d !! t = None) as ->.
  { apply not_elem_of_dom. rewrite Hdom. by rewrite elem_of_list_to_set. }
  done.
Qed.

Section registry.

(** The classes named in orm_aggregates.py are values of [TYPES], and
    so are the element types the array loop registers under: without
    either, the module body raises a KeyError. *)
Hypothesis named_types_registered :
  ∀ t, t ∈ [DateTimeType; DateType; DurationType; NumberType; BooleanType] →
       t ∈ TYPES_values.
Hypothesis element_types_registered :
  ∀ a, a ∈ ArrayTypeMixin_subclasses → raw_type a = None →
       element_type a ∈ TYPES_values.

(** The module body runs through and registers, for every type, the
    names of the design's membership rules. *)
Lemma TYPE_AGGREGATES_spec :
  ∃ d, TYPE_AGGREGATES = Return d ∧
       dom d = list_to_set TYPES_values ∧
       ∀ t, t ∈ TYPES_values → keys_at d t = registered_names t.
Proof using named_types_registered element_types_registered.
  unfold TYPE_AGGREGATES.
  destruct (initial_registry_spec TYPES_values ∅) as [Hd0 Hk0].
  { intros t. unfold keys_at. by rewrite lookup_empty. }
  rewrite dom_empty_L, (right_id_L ∅ (∪)) in Hd0.
  set (d0 := foldl _ ∅ TYPES_values) in *.
  (* the [count] loop *)
  destruct (for_each_setitem2_spec
              (fun d type_ =>
                 if bool_decide (type_ ≠ BooleanType)
                 then setitem2 type_ "count" (count_distinct, NumberType) d
                 else Return d)
              (fun type_ => bool_decide (type_ ≠ BooleanType))
              (fun type_ => type_) "count"
              (fun _ => (count_distinct, NumberType))
              TYPES_values ltac:(done) d0)
    as (d1 & -> & Hd1 & Hk1).
  { intros x Hx _. rewrite Hd0. by apply elem_of_list_to_set. }
  cbn [for_each mbind Outcome_bind].
  (* the straight-line part: sixteen assignments under named types *)
  repeat match goal with
  | |- context [setitem2 ?ty ?k ?v ?d] =>
      let d' := fresh "d" in
      let Hd := fresh "Hd" in
      let Hk := fresh "Hk" in
      destruct (setitem2_spec ty k v d) as (d' & -> & Hd & Hk);
      [ repeat match goal with H : dom _ = _ |- _ => rewrite H end;
        apply elem_of_list_to_set, named_types_registered;
        repeat constructor
      | cbn [for_each mbind Outcome_bind] ]
  end.

  (* the array loop *)
  lazymatch goal with
  | |- context [for_each _ ArrayTypeMixin_subclasses ?d] =>
      destruct (array_loop_spec d) as (d' & -> & Hd' & Hk')
  end.
  { intros a Ha Hraw.
    repeat match goal with H : dom _ = _ |- _ => rewrite H end.
    apply elem_of_list_to_set. by apply element_types_registered. }
  eexists. split; [reflexivity |]. split.
  { repeat match goal with H : dom _ = _ |- _ => rewrite H end. done. }
  intros t Ht. rewrite Hk'.
  repeat match goal with
         | H : ∀ t', keys_at _ t' = _ |- _ => rewrite !H; clear H
         end.
  unfold registered_names.
  rewrite (existsb_count_loop _ _ Ht).
  generalize (array_aggregation_enabled && is_raw_element_type t).
  intros all_registered. clear.
  destruct t.
  all: repeat match goal with
       | |- context [bool_decide ?P] =>
           first [ rewrite (bool_decide_eq_true_2 P) by (clear; set_solver)
                 | rewrite (bool_decide_eq_false_2 P) by (clear; set_solver) ]
       end.
  all: repeat (case_decide; [try discriminate | try congruence]).
  all: clear; set_solver.
Qed.

(** Building the aggregate descriptor of a registry entry cannot
    fail: it is concrete and has a result type. *)
Lemma OrmAggregateField_Return base_type name func res_type :
  OrmAggregateField base_type name func (Some res_type)
  = Return (mkOrmBaseField (ClsAggregate base_type func)
              (type_name base_type) name (replace_char "_" " " name)
              (Some res_type) true None false []).
Proof. reflexivity. Qed.

Lemma aggregate_items_Return base_type (l : list (string * AggEntry)) :
  ∃ items,
    mapM (fun '(name, (func, res_type)) =>
            f ← OrmAggregateField base_type name func (Some res_type);
            Return (name, f)) l = Return items ∧
    items.*1 = l.*1 ∧
    Forall (fun '(key, f) =>
              key = name f ∧
              ∃ func, cls f = ClsAggregate base_type func) items.
Proof.
  induction l as [| [key [func res_type]] l (items & IH & Hfst & Hall)];
    cbn [mapM].
  - exists []. by repeat split.
  - rewrite OrmAggregateField_Return. cbn [mbind Outcome_bind].
    rewrite IH. cbn [mbind Outcome_bind].
    eexists. split; [reflexivity |]. cbn. split; [by rewrite Hfst |].
    constructor; [| done]. cbn. eauto.
Qed.

(** [get_aggregates_for_type] returns, for a registered type, a
    dictionary whose keys are the names registered for the type. *)
Lemma get_aggregates_for_type_dom t :
  t ∈ TYPES_values →
  ∃ m, get_aggregates_for_type t = Return m ∧ dom m = registered_names t.
Proof using named_types_registered element_types_registered.
  intros Ht. unfold get_aggregates_for_type.
  destruct TYPE_AGGREGATES_spec as (d & -> & Hdom & Hkeys).
  cbn [mbind Outcome_bind].
  assert (t ∈ dom d) as [inner Hinner]%elem_of_dom.
  { rewrite Hdom. by apply elem_of_list_to_set. }
  rewrite Hinner. cbn [mbind Outcome_bind].
  destruct (aggregate_items_Return t (map_to_list inner))
    as (items & -> & Hfst & _).
  cbn [mbind Outcome_bind]. eexists. split; [reflexivity |].
  rewrite dom_list_to_map_L, Hfst, <- dom_list_to_map_L, list_to_map_to_list.
  rewrite <- (Hkeys t Ht). unfold keys_at. by rewrite Hinner.
Qed.

Lemma is_raw_element_type_iff t :
  is_raw_element_type t = true ↔
  ∃ a, a ∈ ArrayTypeMixin_subclasses ∧ raw_type a = None ∧ element_type a = t.
Proof.
  unfold is_raw_element_type. rewrite existsb_exists. split.
  - intros (a & Ha%list_elem_of_In & [H1 H2]%andb_true_iff).
    apply bool_decide_eq_true in H1, H2. eauto.
  - intros (a & Ha & H1 & H2). exists a.
    split; [by apply list_elem_of_In |].
    apply andb_true_iff. by rewrite !bool_decide_eq_true.
Qed.

(** C1, as amended: for Number the dictionary of aggregates has the keys
    count, max, min, average, std_dev, sum and variance, for Boolean the
    keys average and sum, so no count; and either has one more key,
    [all], exactly when the engine setting contains [postgresql] and the
    type is the [element_type] of a subclass of [ArrayTypeMixin] whose
    [raw_type] is [None].  Nothing else is a key. *)
Theorem get_aggregates_for_type_Number_Boolean_keys :
  let has_all t :=
    (∃ before after, ENGINE = before +:+ "postgresql" +:+ after) ∧
    (∃ a, a ∈ ArrayTypeMixin_subclasses ∧ raw_type a = None ∧
          element_type a = t) in
  (∃ m, get_aggregates_for_type NumberType = Return m ∧
        ∀ k, k ∈ dom m ↔
             k ∈ ["count"; "max"; "min"; "average"; "std_dev"; "sum";
                  "variance"]
             ∨ (k = "all" ∧ has_all NumberType)) ∧
  (∃ m, get_aggregates_for_type BooleanType = Return m ∧
        (∀ k, k ∈ dom m ↔
              k ∈ ["average"; "sum"] ∨ (k = "all" ∧ has_all BooleanType)) ∧
        "count" ∉ dom m).
Proof using named_types_registered element_types_registered.
  cbv zeta.
  assert (∀ t, (∃ before after, ENGINE = before +:+ "postgresql" +:+ after) ∧
               (∃ a, a ∈ ArrayTypeMixin_subclasses ∧ raw_type a = None ∧
                     element_type a = t)
               ↔ array_aggregation_enabled && is_raw_element_type t = true)
    as Hall.
  { intros t. rewrite andb_true_iff, is_raw_element_type_iff.
    unfold array_aggregation_enabled. by rewrite str_contains_iff. }
  split.
  - destruct (get_aggregates_for_type_dom NumberType) as (m & -> & Hm).
    { apply named_types_registered. clear; set_solver. }
    exists m. split; [done |]. intros k.
    rewrite Hm, (Hall NumberType). unfold registered_names.
    rewrite !bool_decide_eq_true_2 by (clear; set_solver).
    rewrite bool_decide_eq_false_2 by (clear; set_solver).
    generalize (array_aggregation_enabled && is_raw_element_type NumberType).
    intros all_registered. clear.
    destruct all_registered; set_solver.
  - destruct (get_aggregates_for_type_dom BooleanType) as (m & -> & Hm).
    { apply named_types_registered. clear; set_solver. }
    exists m. split; [done |].
    assert (∀ k, k ∈ dom m ↔
                 k ∈ ["average"; "sum"]
                 ∨ k = "all"
                   ∧ array_aggregation_enabled && is_raw_element_type BooleanType
                     = true) as Hk.
    { intros k. rewrite Hm. unfold registered_names.
      rewrite !bool_decide_eq_false_2 by (clear; set_solver).
      rewrite bool_decide_eq_true_2 by (clear; set_solver).
      generalize (array_aggregation_enabled && is_raw_element_type BooleanType).
      intros all_registered. clear.
      destruct all_registered; set_solver. }
    split.
    + intros k. by rewrite Hk, (Hall BooleanType).
    + rewrite Hk. clear. intros [H | [H _]]; [| discriminate].
      repeat (apply elem_of_cons in H as [H | H]; [discriminate H |]).
      by apply elem_of_nil in H.
Qed.

(** X29: the keys for the other types, as long as they are no element types
    of arrays: count, max, min, average and sum for Duration; count, max
    and min for DateTime and Date; count alone for HTML and for every
    further registered type. *)
Theorem get_aggregates_for_type_keys_by_type (t : BaseType) :
  t ∈ TYPES_values →
  array_aggregation_enabled && is_raw_element_type t = false →
  ∃ m, get_aggregates_for_type t = Return m ∧
       dom m = match t with
               | BooleanType => {["average"; "sum"]}
               | NumberType =>
                   {["count"; "max"; "min"; "average"; "std_dev"; "sum";
                     "variance"]}
               | DurationType => {["count"; "max"; "min"; "average"; "sum"]}
               | DateTimeType | DateType => {["count"; "max"; "min"]}
               | HTMLType | OtherType _ => {["count"]}
               end.
Proof using named_types_registered element_types_registered.
  intros Ht Hall.
  destruct (get_aggregates_for_type_dom t Ht) as (m & -> & Hm).
  exists m. split; [done |]. rewrite Hm. unfold registered_names.
  rewrite Hall. clear.
  destruct t.
  all: repeat match goal with
       | |- context [bool_decide ?P] =>
           first [ rewrite (bool_decide_eq_true_2 P) by (clear; set_solver)
                 | rewrite (bool_decide_eq_false_2 P) by (clear; set_solver) ]
       end.
  all: clear; set_solver.
Qed.

(** X30: for an element type of an array with [raw_type] [None], and an
    engine with array aggregation, [all] is one of the keys. *)
Theorem get_aggregates_for_type_all (t : BaseType) :
  t ∈ TYPES_values →
  ∃ m, get_aggregates_for_type t = Return m ∧
       ("all" ∈ dom m ↔
        array_aggregation_enabled = true ∧
        ∃ a, a ∈ ArrayTypeMixin_subclasses ∧ raw_type a = None ∧
             element_type a = t).
Proof using named_types_registered element_types_registered.
  intros Ht.
  destruct (get_aggregates_for_type_dom t Ht) as (m & -> & Hm).
  exists m. split; [done |]. rewrite Hm. unfold registered_names.
  assert (is_raw_element_type t = true ↔
          ∃ a, a ∈ ArrayTypeMixin_subclasses ∧ raw_type a = None ∧
               element_type a = t) as <-.
  { unfold is_raw_element_type. rewrite existsb_exists. split.
    - intros (a & Ha%list_elem_of_In & [H1 H2]%andb_true_iff).
      apply bool_decide_eq_true in H1, H2. eauto.
    - intros (a & Ha & H1 & H2). exists a.
      split; [by apply list_elem_of_In |].
      apply andb_true_iff. by rewrite !bool_decide_eq_true. }
  rewrite <- andb_true_iff.
  generalize (array_aggregation_enabled && is_raw_element_type t).
  intros all_registered. clear.
  repeat case_bool_decide; destruct all_registered; set_solver.
Qed.

End registry.

End data_browser.

(** * The definitions run on sample input *)

(** The design's scenario: binding [customer] and then [total] from the
    root gives the two-element paths. *)
Example bind_customer_total :
  (b ← bind sample_s sample_annotation_path customer_field None;
   bind sample_s sample_annotation_path total_field (Some b))
  = Return {| annotated := false; field := Some total_field;
              previous := Some customer_bound;
              full_path := ["customer"; "total"];
              pretty_path := ["Customer"; "Total"];
              queryset_path := ["customer"; "total"];
              aggregate_clause := None; filter_ := true; having := false;
              bound_model_name := None |}.
Proof. reflexivity. Qed.

(** Aggregating [total] with [sum]. *)
Example bind_sum_total :
  bind sample_s sample_annotation_path sum_field (Some total_bound)
  = Return {| annotated := false; field := Some sum_field;
              previous := Some total_bound;
              full_path := ["total"; "sum"];
              pretty_path := ["Total"; "sum"];
              queryset_path := ["ddb__total__sum"];
              aggregate_clause := Some (Sum (Ref "total"));
              filter_ := false; having := true;
              bound_model_name := None |}.
Proof. reflexivity. Qed.

(** [sum] cannot be bound to the foreign key [customer], which has no
    semantic type. *)
Example bind_sum_customer :
  bind sample_s sample_annotation_path sum_field (Some customer_bound)
  = Raise (mkExc AssertionError "").
Proof. reflexivity. Qed.

(** The display name of an aggregate replaces underscores by spaces. *)
Example std_dev_pretty_name :
  pretty_name <$> OrmAggregateField sample_type_name NumberType "std_dev"
                    (fun x => Return (StdDev (Ref x))) (Some NumberType)
  = Return "std dev".
Proof. reflexivity. Qed.

(** A foreign key without a related entity cannot be constructed, and
    neither can a concrete field without a type. *)
Example OrmFkField_without_rel_name :
  OrmFkField "shop.Order" "customer" "Customer" None
  = Raise (mkExc AssertionError "").
Proof. reflexivity. Qed.

Example OrmConcreteField_without_type :
  OrmConcreteField "shop.Order" "total" "Total" None (Some "number") None
  = Raise (mkExc AssertionError "").
Proof. reflexivity. Qed.

(** An exception that is no instance of [Exception] passes through the
    formatter of a calculated field. *)
Example calculated_formatter_system_exit :
  (format ← get_formatter sample_get_formatter sample_format_html
              (mkOrmBaseField
                 (ClsCalculated
                    (mkCallable false
                       (fun _ => Raise (mkExc (SystemExiting "SystemExit") "1"))))
                 "shop.Order" "quit" "Quit" (Some HTMLType) false None true []);
   format (PyObject 1 true))
  = Raise (mkExc (SystemExiting "SystemExit") "1").
Proof. reflexivity. Qed.

(** What Django raises at [qs.annotate] is what [annotate] raises. *)
Example annotate_django_refuses :
  annotate sample_s sample_admin_get_queryset sample_django_refuses
    rating_bound (PyObject 0 true) (QsGiven 0)
  = Raise (mkExc (OtherException "FieldError") "Cannot resolve keyword").
Proof. reflexivity. Qed.

(** The blank root has no descriptor: asking it for [group_by] ends in
    the AttributeError of [__getattr__]. *)
Example group_by_blank :
  group_by blank
  = Raise (mkExc AttributeError
             "'NoneType' object has no attribute 'group_by'").
Proof. reflexivity. Qed.

(** The engine test is a substring test. *)
Example postgresql_engine :
  array_aggregation_enabled "django.db.backends.postgresql" = true ∧
  array_aggregation_enabled "django.contrib.gis.db.backends.postgis" = false ∧
  array_aggregation_enabled "django.db.backends.sqlite3" = false.
Proof. by repeat split. Qed.

(** The keys of the aggregates on the sample type table, with and
    without array aggregation. *)
Example sample_Number_postgresql :
  dom <$> get_aggregates_for_type sample_type_name sample_type_name
            sample_TYPES sample_arrays "django.db.backends.postgresql" true
            NumberType
  = Return {["count"; "max"; "min"; "average"; "std_dev"; "sum"; "variance";
             "all"]}.
Proof. vm_compute. reflexivity. Qed.

Example sample_Number_sqlite3 :
  dom <$> get_aggregates_for_type sample_type_name sample_type_name
            sample_TYPES sample_arrays "django.db.backends.sqlite3" true
            NumberType
  = Return {["count"; "max"; "min"; "average"; "std_dev"; "sum"; "variance"]}.
Proof. vm_compute. reflexivity. Qed.

Example sample_Boolean_postgresql :
  dom <$> get_aggregates_for_type sample_type_name sample_type_name
            sample_TYPES sample_arrays "django.db.backends.postgresql" true
            BooleanType
  = Return {["average"; "sum"]}.
Proof. vm_compute. reflexivity. Qed.

(** A class that is no value of [TYPES] has no aggregates. *)
Example sample_unregistered_type :
  get_aggregates_for_type sample_type_name sample_type_name
    sample_TYPES sample_arrays "django.db.backends.postgresql" true
    (OtherType "UnknownType")
  = Raise (mkExc KeyError "UnknownType").
Proof. vm_compute. reflexivity. Qed.

(** Were there an array type of Booleans in [types.py], Boolean would
    get [all] as well: the registry follows the array types. *)
Example sample_Boolean_with_boolean_array :
  dom <$> get_aggregates_for_type sample_type_name sample_type_name
            (sample_TYPES ++ [("booleanarray", OtherType "BooleanArrayType")])
            (sample_arrays ++
             [mkArrayType (OtherType "BooleanArrayType") BooleanType None])
            "django.db.backends.postgresql" true BooleanType
  = Return {["average"; "sum"; "all"]}.
Proof. vm_compute. reflexivity. Qed.

(** * The theorems applied to sample input *)

Lemma sample_named_types_registered :
  ∀ t, t ∈ [DateTimeType; DateType; DurationType; NumberType; BooleanType] →
       t ∈ TYPES_values sample_TYPES.
Proof.
  intros t Ht. unfold TYPES_values, sample_TYPES. cbn.
  repeat (apply elem_of_cons in Ht as [-> | Ht]); [.. | by apply elem_of_nil in Ht];
    set_solver.
Defined.

Lemma sample_element_types_registered :
  ∀ a, a ∈ sample_arrays → raw_type a = None →
       element_type a ∈ TYPES_values sample_TYPES.
Proof.
  intros a Ha. unfold TYPES_values, sample_TYPES, sample_arrays in *. cbn.
  repeat (apply elem_of_cons in Ha as [-> | Ha]); [.. | by apply elem_of_nil in Ha];
    cbn; intros Hraw; [set_solver | set_solver | discriminate].
Defined.

Lemma get_aggregates_for_type_Number_Boolean_keys_postgresql :
  (∃ m, get_aggregates_for_type sample_type_name sample_type_name
          sample_TYPES sample_arrays "django.db.backends.postgresql" true
          NumberType = Return m ∧
        ∀ k, k ∈ dom m ↔
             k ∈ ["count"; "max"; "min"; "average"; "std_dev"; "sum";
                  "variance"]
             ∨ (k = "all" ∧
                (∃ before after,
                   "django.db.backends.postgresql"
                   = before +:+ "postgresql" +:+ after) ∧
                (∃ a, a ∈ sample_arrays ∧ raw_type a = None ∧
                      element_type a = NumberType))) ∧
  (∃ m, get_aggregates_for_type sample_type_name sample_type_name
          sample_TYPES sample_arrays "django.db.backends.postgresql" true
          BooleanType = Return m ∧
        (∀ k, k ∈ dom m ↔
              k ∈ ["average"; "sum"]
              ∨ (k = "all" ∧
                 (∃ before after,
                    "django.db.backends.postgresql"
                    = before +:+ "postgresql" +:+ after) ∧
                 (∃ a, a ∈ sample_arrays ∧ raw_type a = None ∧
                       element_type a = BooleanType))) ∧
        "count" ∉ dom m).
Proof.
  exact (get_aggregates_for_type_Number_Boolean_keys
           sample_type_name sample_type_name sample_TYPES sample_arrays
           "django.db.backends.postgresql" true
           sample_named_types_registered sample_element_types_registered).
Defined.

(** With an array type of Booleans among the subclasses of
    [ArrayTypeMixin] and a PostgreSQL engine, the keys for Boolean are
    average, sum and [all]: not exactly average and sum. *)
Lemma get_aggregates_for_type_Boolean_all :
  dom <$> get_aggregates_for_type sample_type_name sample_type_name
            (sample_TYPES ++ [("booleanarray", OtherType "BooleanArrayType")])
            (sample_arrays ++
             [mkArrayType (OtherType "BooleanArrayType") BooleanType None])
            "django.db.backends.postgresql" true BooleanType
  = Return {["average"; "sum"; "all"]} ∧
  dom <$> get_aggregates_for_type sample_type_name sample_type_name
            (sample_TYPES ++ [("booleanarray", OtherType "BooleanArrayType")])
            (sample_arrays ++
             [mkArrayType (OtherType "BooleanArrayType") BooleanType None])
            "django.db.backends.postgresql" true BooleanType
  ≠ Return {["average"; "sum"]}.
Proof.
  assert (dom <$> get_aggregates_for_type sample_type_name sample_type_name
            (sample_TYPES ++ [("booleanarray", OtherType "BooleanArrayType")])
            (sample_arrays ++
             [mkArrayType (OtherType "BooleanArrayType") BooleanType None])
            "django.db.backends.postgresql" true BooleanType
          = Return {["average"; "sum"; "all"]}) as ->.
  { vm_compute. reflexivity. }
  split; [done |]. intros H.
  assert (∀ x y : gset string, Return x = Return y → x = y) as Hinj
    by (by intros x y [= ->]).
  apply Hinj in H.
  assert ("all" ∈ ({["average"; "sum"]} : gset string)) as Hall
    by (rewrite <- H; clear; set_solver).
  clear -Hall. set_solver.
Qed.

Lemma OrmConcreteField_bind_root_total :
  ∃ b, bind sample_s sample_annotation_path total_field None = Return b ∧
       filter_ b = true ∧ having b = false ∧ queryset_path b = ["total"].
Proof.
  apply (OrmConcreteField_bind_root sample_s sample_annotation_path total_field).
  reflexivity.
Defined.

Lemma OrmRawField_bind_previous_customer :
  ∃ b, bind sample_s sample_annotation_path raw_field (Some customer_bound)
       = Return b ∧
       queryset_path b = queryset_path customer_bound ∧
       full_path b = full_path customer_bound ++ [name raw_field] ∧
       pretty_path b = pretty_path customer_bound ++ [pretty_name raw_field] ∧
       length (full_path b) = S (length (full_path customer_bound)) ∧
       length (pretty_path b) = S (length (pretty_path customer_bound)) ∧
       filter_ b = true.
Proof.
  apply (OrmRawField_bind_previous sample_s sample_annotation_path raw_field
           customer_bound).
  reflexivity.
Defined.

Lemma OrmRawField_bind_None_pk :
  bind sample_s sample_annotation_path raw_field None
  = none_has_no_attribute "full_path".
Proof.
  apply (OrmRawField_bind_None sample_s sample_annotation_path raw_field).
  reflexivity.
Defined.

Lemma OrmAggregateField_bind_mismatch_customer :
  bind sample_s sample_annotation_path sum_field (Some customer_bound)
  = Raise (mkExc AssertionError "").
Proof.
  apply (OrmAggregateField_bind_mismatch sample_s sample_annotation_path
           sum_field NumberType (fun x => Return (Sum (Ref x)))
           customer_bound customer_field);
    [reflexivity | reflexivity | discriminate].
Defined.

Lemma OrmAggregateField_bind_match_total :
  ∃ b, bind sample_s sample_annotation_path sum_field (Some total_bound)
       = Return b ∧
       having b = true ∧
       full_path b = full_path total_bound ++ [name sum_field] ∧
       queryset_path b = [sample_annotation_path (full_path b)] ∧
       length (queryset_path b) = 1 ∧
       aggregate_clause b = Some (Sum (Ref "total")).
Proof.
  apply (OrmAggregateField_bind_match sample_s sample_annotation_path
           sum_field NumberType (fun x => Return (Sum (Ref x)))
           total_bound total_field);
    reflexivity.
Defined.

Lemma bind_chain_path_lengths_customer_total :
  ∃ r, bind_chain sample_s sample_annotation_path None
         [customer_field; total_field] = Return r ∧
       length (full_path (or_blank r)) = 2 ∧
       length (pretty_path (or_blank r)) = 2 ∧
       pretty_path (or_blank r) = ["Customer"; "Total"].
Proof.
  eexists. split; [reflexivity |].
  destruct (bind_chain_path_lengths sample_s sample_annotation_path
              [customer_field; total_field] None _
              (or_introl eq_refl) eq_refl) as (H1 & H2 & H3 & _).
  exact (conj H1 (conj H2 H3)).
Defined.

Lemma OrmCalculatedField_formatter_catches_broken :
  ∃ format, get_formatter sample_get_formatter sample_format_html broken_field
            = Return format ∧
            format (PyObject 7 true) = Return (PyStr "boom").
Proof.
  apply (OrmCalculatedField_formatter_catches sample_get_formatter
           sample_format_html broken_field broken_func HTMLType
           (fun v => Return v) (PyObject 7 true)
           (mkExc (OtherException "ValueError") "boom"));
    [reflexivity | reflexivity | reflexivity | discriminate
    | reflexivity | reflexivity].
Defined.

Lemma OrmFileField_formatter_broken_storage :
  ∃ format, get_formatter sample_get_formatter sample_format_html file_field
            = Return format ∧
    (∀ value, truthy value = false → format value = Return PyNone) ∧
    (∀ value e, truthy value = true →
                broken_storage value = Raise e →
                is_Exception (exc_class e) = true →
                format value = Return (PyStr (exc_str e))).
Proof.
  apply (OrmFileField_formatter sample_get_formatter sample_format_html
           file_field broken_storage).
  reflexivity.
Defined.

(** * The further theorems applied to sample input *)

Lemma get_model_name_inj_order :
  order_model = mkModel "shop" "Order".
Proof.
  apply (get_model_name_inj order_model (mkModel "shop" "Order") "."%char);
    [cbn; set_solver | cbn; set_solver | reflexivity].
Defined.

Lemma bind_filter_having_exclusive_total :
  field total_bound = Some total_field ∧
  previous total_bound = Some (or_blank None) ∧
  ¬ (filter_ total_bound = true ∧ having total_bound = true) ∧
  (is_Some (aggregate_clause total_bound) ↔ having total_bound = true) ∧
  (having total_bound = true ↔
   ∃ bt func, cls total_field = ClsAggregate bt func).
Proof.
  apply (bind_filter_having_exclusive sample_s sample_annotation_path
           total_field None total_bound).
  reflexivity.
Defined.

Lemma bind_chain_full_path_names_customer_total :
  ∃ r, bind_chain sample_s sample_annotation_path None
         [customer_field; total_field] = Return r ∧
       full_path (or_blank r) = ["customer"; "total"].
Proof.
  eexists. split; [reflexivity |].
  exact (proj1 (bind_chain_full_path_names sample_s sample_annotation_path
                  [customer_field; total_field] _ eq_refl)).
Defined.

Lemma bind_chain_plain_queryset_path_customer_total :
  ∃ r, bind_chain sample_s sample_annotation_path None
         [customer_field; total_field] = Return r ∧
       queryset_path (or_blank r) = name <$> [customer_field; total_field] ∧
       queryset_path (or_blank r) = full_path (or_blank r).
Proof.
  apply (bind_chain_plain_queryset_path sample_s sample_annotation_path
           [customer_field; total_field]).
  repeat constructor.
Defined.

Lemma bind_chain_queryset_path_nonempty_customer_rating :
  queryset_path rating_bound ≠ [] ∧
  (length (queryset_path rating_bound) ≤ length (full_path rating_bound))%nat.
Proof.
  apply (bind_chain_queryset_path_nonempty sample_s sample_annotation_path
           [customer_field; rating_field] rating_bound);
    [discriminate | reflexivity].
Defined.

Lemma lineage_of_bind_chain_customer_rating :
  length (_lineage rating_bound) = 3 ∧
  head (_lineage rating_bound) = Some blank ∧
  last (_lineage rating_bound) = Some rating_bound ∧
  (∀ i x, _lineage rating_bound !! i = Some x →
          full_path x = take i ["customer"; "rating"]).
Proof.
  apply (lineage_of_bind_chain sample_s sample_annotation_path
           [customer_field; rating_field] (Some rating_bound)).
  reflexivity.
Defined.

Lemma annotate_annotations_rating :
  ∃ qs', annotate sample_s sample_admin_get_queryset sample_django_raises rating_bound
           (PyObject 0 true) (QsGiven 0) = Return qs' ∧
         annotations qs'
         = annotations (QsGiven 0)
           ++ (queryset_path_str sample_s
                 <$> filter (fun x => annotated x = true)
                       (_lineage rating_bound)).
Proof.
  eexists. split; [reflexivity |].
  apply (annotate_annotations sample_s sample_admin_get_queryset
           sample_django_raises rating_bound (PyObject 0 true) (QsGiven 0)).
  reflexivity.
Defined.

Lemma annotate_without_annotated_fields_customer_total :
  ∃ r, bind_chain sample_s sample_annotation_path None
         [customer_field; total_field] = Return r ∧
       annotate sample_s sample_admin_get_queryset sample_django_raises
         (or_blank r)
         (PyObject 0 true) (QsGiven 0) = Return (QsGiven 0).
Proof.
  eexists. split; [reflexivity |].
  apply (annotate_without_annotated_fields sample_s sample_annotation_path
           sample_admin_get_queryset sample_django_raises
           [customer_field; total_field]);
    [repeat constructor | reflexivity].
Defined.

Lemma annotate_of_annotated_bind_rating :
  annotate sample_s sample_admin_get_queryset sample_django_raises rating_bound
    (PyObject 0 true) (QsGiven 0)
  = Return (QsAnnotate (QsGiven 0) (queryset_path_str sample_s rating_bound)
              (QsFirst
                 (QsValues
                    (QsFilterPkOuterRef (QsGiven 1)
                       (sample_s (queryset_path customer_bound ++ ["id"])))
                    "rating"))
              (PyObject 3 true)).
Proof.
  destruct (annotate_of_annotated_bind sample_s sample_annotation_path
              sample_admin_get_queryset sample_django_raises rating_field
              (PyObject 3 true) (PyObject 4 true) (Some customer_bound)
              rating_bound (PyObject 0 true) (QsGiven 0) (QsGiven 0)
              eq_refl eq_refl eq_refl) as [_ H].
  destruct (H (QsGiven 1) eq_refl) as [Hreturn _].
  apply Hreturn. repeat constructor.
Defined.

Lemma annotate_chain_outcome_customer_rating :
  ∃ qs', annotate sample_s sample_admin_get_queryset sample_django_raises
           rating_bound (PyObject 0 true) (QsGiven 0) = Return qs' ∧
         length (annotations qs')
         = (length (annotations (QsGiven 0))
            + length (filter (fun f => is_annotated_cls (cls f) = true)
                        [customer_field; rating_field]))%nat.
Proof.
  eexists. split; [reflexivity |].
  destruct (annotate_chain_outcome sample_s sample_annotation_path
              sample_admin_get_queryset sample_django_raises
              [customer_field; rating_field] (Some rating_bound)
              (PyObject 0 true) (QsGiven 0) eq_refl) as (Hlen & _ & _).
  apply Hlen. reflexivity.
Defined.

Lemma group_by_by_constructor_total :
  group_by total_bound = Return (can_pivot total_field).
Proof.
  apply (group_by_by_constructor sample_s sample_annotation_path
           sample_type_name total_field None total_bound).
  reflexivity.
Defined.

Lemma OrmCalculatedField_formatter_paths_is_big :
  ∃ format, get_formatter sample_get_formatter sample_format_html is_big_field
            = Return format ∧
    format PyNone = Return PyNone ∧
    (∀ obj value, obj ≠ PyNone → call is_big_func obj = Return value →
                  format obj = Return value) ∧
    (∀ obj e, obj ≠ PyNone → call is_big_func obj = Raise e →
              is_Exception (exc_class e) = false → format obj = Raise e).
Proof.
  apply (OrmCalculatedField_formatter_paths sample_get_formatter
           sample_format_html is_big_field is_big_func BooleanType
           (fun v => Return v));
    reflexivity.
Defined.

Lemma OrmFileField_formatter_never_raises_invoice :
  ∃ format, get_formatter sample_get_formatter sample_format_html file_field
            = Return format ∧
    (∀ value e, format value = Raise e → is_Exception (exc_class e) = false) ∧
    (∀ value url, truthy value = true → broken_storage value = Return url →
       format value
       = try_except_Exception (sample_format_html link_template [url; value])
           (fun e => Return (PyStr (exc_str e)))).
Proof.
  apply (OrmFileField_formatter_never_raises sample_get_formatter
           sample_format_html file_field broken_storage).
  reflexivity.
Defined.

Lemma default_filters_values_are_strings_order :
  ∃ r, default_filters sample_get_option sample_json_dumps order_orm_model
       = Return r ∧
       r = [(PyStr "total", PyStr "gt", PyStr "5");
            (PyStr "status", PyStr "equals", PyStr "open")] ∧
       ∃ items,
         sample_get_option (admin order_orm_model) "default_filters"
         = Return (OptList items) ∧
         length r = length items.
Proof.
  eexists. split; [reflexivity |]. split; [reflexivity |].
  destruct (default_filters_values_are_strings sample_get_option
              sample_json_dumps order_orm_model _ eq_refl)
    as (items & Hitems & Hlen & _).
  exists items. exact (conj Hitems Hlen).
Defined.

Lemma default_filters_strings_unchanged_order :
  default_filters sample_get_option_strings sample_json_dumps order_orm_model
  = Return [(PyStr "status", PyStr "equals", PyStr "open")].
Proof.
  apply (default_filters_strings_unchanged sample_get_option_strings
           sample_json_dumps order_orm_model string_filters).
  reflexivity.
Defined.

Lemma default_filters_bad_item_order :
  ∃ e, default_filters sample_get_option_bad sample_json_dumps order_orm_model
       = Raise e ∧
       exc_class e = OtherException "ValueError".
Proof.
  apply (default_filters_bad_item sample_get_option_bad sample_json_dumps
           order_orm_model string_filters [PyStr "total"; PyStr "gt"] []);
    [discriminate | reflexivity].
Defined.

Lemma OrmAggregateField_pretty_name_std_dev :
  ∃ f, OrmAggregateField sample_type_name NumberType "std_dev"
         (fun x => Return (StdDev (Ref x))) (Some NumberType) = Return f ∧
       name f = "std_dev" ∧
       String.length (pretty_name f) = String.length "std_dev" ∧
       ("_"%char ∉ list_ascii_of_string (pretty_name f)) ∧
       pretty_name f = "std dev".
Proof.
  eexists. split; [reflexivity |].
  destruct (OrmAggregateField_pretty_name sample_type_name NumberType
              "std_dev" (fun x => Return (StdDev (Ref x))) (Some NumberType)
              _ eq_refl) as (H1 & H2 & _ & _ & H3 & _).
  exact (conj H1 (conj H2 (conj H3 eq_refl))).
Defined.

(** The aggregates of the sample type table. *)
Lemma sample_aggregate (imported : bool) (base : BaseType) (k : string) :
  base ∈ TYPES_values sample_TYPES →
  k ∈ registered_names sample_arrays "django.db.backends.postgresql" base →
  ∃ m f, get_aggregates_for_type sample_type_name sample_type_name
           sample_TYPES sample_arrays "django.db.backends.postgresql"
           imported base = Return m ∧
         m !! k = Some f.
Proof.
  intros Hbase Hk.
  destruct (get_aggregates_for_type_dom sample_type_name sample_type_name
              sample_TYPES sample_arrays "django.db.backends.postgresql"
              imported sample_named_types_registered
              sample_element_types_registered base Hbase) as (m & Hm & Hdom).
  rewrite <- Hdom in Hk. apply elem_of_dom in Hk as [f Hf]. eauto.
Defined.

Lemma sample_Number_registered : NumberType ∈ TYPES_values sample_TYPES.
Proof. unfold TYPES_values, sample_TYPES. cbn. set_solver. Defined.

Lemma sample_Boolean_registered : BooleanType ∈ TYPES_values sample_TYPES.
Proof. unfold TYPES_values, sample_TYPES. cbn. set_solver. Defined.

Lemma sample_Duration_registered : DurationType ∈ TYPES_values sample_TYPES.
Proof. unfold TYPES_values, sample_TYPES. cbn. set_solver. Defined.

Lemma get_aggregates_for_type_descriptors_count :
  ∃ m f, get_aggregates_for_type sample_type_name sample_type_name
           sample_TYPES sample_arrays "django.db.backends.postgresql" true
           NumberType = Return m ∧
         m !! "count" = Some f ∧
         name f = "count" ∧
         (∃ func, cls f = ClsAggregate NumberType func) ∧
         model_name f = "number" ∧
         concrete f = true ∧ can_pivot f = false.
Proof.
  destruct (sample_aggregate true NumberType "count" sample_Number_registered)
    as (m & f & Hm & Hf); [by vm_compute |].
  exists m, f. split; [exact Hm |]. split; [exact Hf |].
  destruct (get_aggregates_for_type_descriptors _ _ _ _ _ _ _ _ _ _ Hm Hf)
    as (H1 & H2 & H3 & _ & _ & H6 & H7 & _).
  exact (conj H1 (conj H2 (conj H3 (conj H6 H7)))).
Defined.

Lemma aggregate_result_types_Boolean_sum :
  ∃ m f, get_aggregates_for_type sample_type_name sample_type_name
           sample_TYPES sample_arrays "django.db.backends.postgresql" true
           BooleanType = Return m ∧
         m !! "sum" = Some f ∧
         type_ f = Some NumberType.
Proof.
  destruct (sample_aggregate true BooleanType "sum" sample_Boolean_registered)
    as (m & f & Hm & Hf); [by vm_compute |].
  exists m, f. split; [exact Hm |]. split; [exact Hf |].
  destruct (aggregate_result_types _ _ _ _ _ _ _ _ _ _ Hm Hf)
    as (_ & _ & H3 & _).
  exact (H3 (or_intror eq_refl)).
Defined.

Lemma registry_aggregate_binds_count_total :
  ∃ m f, get_aggregates_for_type sample_type_name sample_type_name
           sample_TYPES sample_arrays "django.db.backends.postgresql" true
           NumberType = Return m ∧
         m !! "count" = Some f ∧
         ∃ b, bind sample_s sample_annotation_path f (Some total_bound)
              = Return b ∧
              having b = true ∧ filter_ b = false ∧
              full_path b = ["total"; "count"] ∧
              pretty_path b = ["Total"; "count"] ∧
              queryset_path b = ["ddb__total__count"] ∧
              is_Some (aggregate_clause b).
Proof.
  destruct (sample_aggregate true NumberType "count" sample_Number_registered)
    as (m & f & Hm & Hf); [by vm_compute |].
  exists m, f. split; [exact Hm |]. split; [exact Hf |].
  apply (registry_aggregate_binds sample_s sample_annotation_path
           _ _ _ _ _ _ _ _ _ _ total_bound total_field Hm Hf);
    [reflexivity | reflexivity | by right].
Defined.

Lemma registry_aggregate_clauses_count_total :
  ∃ m f b, get_aggregates_for_type sample_type_name sample_type_name
             sample_TYPES sample_arrays "django.db.backends.postgresql" true
             NumberType = Return m ∧
           m !! "count" = Some f ∧
           bind sample_s sample_annotation_path f (Some total_bound)
           = Return b ∧
           aggregate_clause b = Some (Count (Ref "total") true).
Proof.
  destruct (sample_aggregate true NumberType "count" sample_Number_registered)
    as (m & f & Hm & Hf); [by vm_compute |].
  destruct (registry_aggregate_binds sample_s sample_annotation_path
              _ _ _ _ _ _ _ _ _ _ total_bound total_field Hm Hf
              eq_refl eq_refl (or_intror eq_refl)) as (b & Hb & _).
  exists m, f, b. split; [exact Hm |]. split; [exact Hf |].
  split; [exact Hb |].
  exact (proj1 (registry_aggregate_clauses sample_s sample_annotation_path
                  _ _ _ _ _ _ _ _ _ _ total_bound b Hm Hf Hb) eq_refl).
Defined.

Lemma registry_all_without_ArrayAgg_total :
  ∃ m f, get_aggregates_for_type sample_type_name sample_type_name
           sample_TYPES sample_arrays "django.db.backends.postgresql" false
           NumberType = Return m ∧
         m !! "all" = Some f ∧
         bind sample_s sample_annotation_path f (Some total_bound)
         = Raise (mkExc TypeError "'NoneType' object is not callable").
Proof.
  destruct (sample_aggregate false NumberType "all" sample_Number_registered)
    as (m & f & Hm & Hf); [by vm_compute |].
  exists m, f. split; [exact Hm |]. split; [exact Hf |].
  apply (registry_all_without_ArrayAgg sample_s sample_annotation_path
           _ _ _ _ _ _ _ _ _ total_bound total_field eq_refl Hm Hf);
    reflexivity.
Defined.

Lemma TYPE_AGGREGATES_needs_named_types_no_datetime :
  ∃ e, TYPE_AGGREGATES sample_type_name
         [("number", NumberType); ("boolean", BooleanType)] sample_arrays
         "django.db.backends.sqlite3" true = Raise e ∧
       exc_class e = KeyError ∧
       ∀ t', get_aggregates_for_type sample_type_name sample_type_name
               [("number", NumberType); ("boolean", BooleanType)]
               sample_arrays "django.db.backends.sqlite3" true t' = Raise e.
Proof.
  apply (TYPE_AGGREGATES_needs_named_types sample_type_name sample_type_name
           [("number", NumberType); ("boolean", BooleanType)] sample_arrays
           "django.db.backends.sqlite3" true DateTimeType);
    unfold TYPES_values; cbn; set_solver.
Defined.

Lemma get_aggregates_for_type_unregistered_uuid :
  get_aggregates_for_type sample_type_name sample_type_name
    sample_TYPES sample_arrays "django.db.backends.postgresql" true
    (OtherType "UUIDType")
  = Raise (mkExc KeyError "UUIDType").
Proof.
  destruct (TYPE_AGGREGATES_spec sample_type_name sample_TYPES sample_arrays
              "django.db.backends.postgresql" true
              sample_named_types_registered sample_element_types_registered)
    as (d & Hd & _).
  apply (get_aggregates_for_type_unregistered sample_type_name
           sample_type_name sample_TYPES sample_arrays
           "django.db.backends.postgresql" true (OtherType "UUIDType") d Hd).
  clear. unfold TYPES_values, sample_TYPES. cbn. intros H.
  repeat (apply elem_of_cons in H as [H | H]; [discriminate H |]).
  by apply elem_of_nil in H.
Defined.

Lemma get_aggregates_for_type_keys_by_type_Duration :
  ∃ m, get_aggregates_for_type sample_type_name sample_type_name
         sample_TYPES sample_arrays "django.db.backends.postgresql" true
         DurationType = Return m ∧
       dom m = {["count"; "max"; "min"; "average"; "sum"]}.
Proof.
  apply (get_aggregates_for_type_keys_by_type sample_type_name
           sample_type_name sample_TYPES sample_arrays
           "django.db.backends.postgresql" true
           sample_named_types_registered sample_element_types_registered
           DurationType sample_Duration_registered).
  reflexivity.
Defined.

Lemma get_aggregates_for_type_all_Number :
  ∃ m, get_aggregates_for_type sample_type_name sample_type_name
         sample_TYPES sample_arrays "django.db.backends.postgresql" true
         NumberType = Return m ∧
       ("all" ∈ dom m ↔
        array_aggregation_enabled "django.db.backends.postgresql" = true ∧
        ∃ a, a ∈ sample_arrays ∧ raw_type a = None ∧
             element_type a = NumberType).
Proof.
  apply (get_aggregates_for_type_all sample_type_name sample_type_name
           sample_TYPES sample_arrays "django.db.backends.postgresql" true
           sample_named_types_registered sample_element_types_registered
           NumberType sample_Number_registered).
Defined.
